(** * Browser Use front-end: settings store, provider registry, client
      factory and task dispatcher

    A shallow embedding of the Python scripts [flexible_browser_use.py],
    [browser_use_ui_fixed.py] and [browser_use_ui.py], followed by the
    properties of the specification that concern them.

    Conventions of the embedding.
    - A Python [str] is a Rocq [string]; every character stands for the code
      point of the same number (0..255), so [String.length] is Python's [len]
      and [Py.isspace] is [str.isspace] on those code points.  Display
      literals of the user interface that carry symbols outside that range
      appear in their UTF-8 encoding; they are only concatenated and shown,
      never measured or stripped.
    - [None | str] is [option string]; a dict is a [gmap]; [os.environ] is a
      [gmap string string] and [os.getenv k] is the lookup [environ !! k].
    - An exception is a value of [Py.exc]: its class as far as the handlers
      of the scripts and [asyncio.wait_for] tell classes apart, and its text
      [str(e)].  [Py.is_Exception] tells the classes under Python's
      [Exception], which the [except Exception] clauses of the scripts
      match, from the classes outside it, which they let through.
    - The browser automation agent and the dotenv reader are libraries
      outside the repository: the agent is an oracle [agent], the reader a
      function [load_dotenv], both taken as parameters. *)

From Stdlib Require Import String Ascii List NArith ZArith Lia Bool.
From Stdlib Require QArith.
From stdpp Require Import base option list gmap strings.

Local Open Scope N_scope.

(** ** Python values *)
Module Py.

(** [str.isspace] on one character: TAB..CR, FS..US, space, NEL, NBSP. *)
Definition isspace (c : ascii) : bool :=
  let n := N_of_ascii c in
  ((9 <=? n) && (n <=? 13)) || ((28 <=? n) && (n <=? 32))
  || (n =? 133) || (n =? 160).

Fixpoint lstrip (s : string) : string :=
  match s with
  | EmptyString => EmptyString
  | String c s' => if isspace c then lstrip s' else s
  end.

Fixpoint rstrip (s : string) : string :=
  match s with
  | EmptyString => EmptyString
  | String c s' =>
      match rstrip s' with
      | EmptyString => if isspace c then EmptyString else String c EmptyString
      | r => String c r
      end
  end.

(** [s.strip()] *)
Definition strip (s : string) : string := rstrip (lstrip s).

(** Truth value of a [str]: [if s:] *)
Definition truthy (s : string) : bool := negb (String.eqb s "").

(** Truth value of a [None | str]: [if v:] *)
Definition truthy_opt (v : option string) : bool :=
  match v with
  | Some s => truthy s
  | None => false
  end.

(** Every character is white space: [s.strip() == ""], that is, [s] is
    empty or [s.isspace()]. *)
Fixpoint whitespace_only (s : string) : bool :=
  match s with
  | EmptyString => true
  | String c s' => isspace c && whitespace_only s'
  end.

(** [str.upper] on the letters a..z; the other characters are kept. *)
Definition upper_char (c : ascii) : ascii :=
  let n := N_of_ascii c in
  if (97 <=? n) && (n <=? 122) then ascii_of_N (n - 32) else c.

Fixpoint upper (s : string) : string :=
  match s with
  | EmptyString => EmptyString
  | String c s' => String (upper_char c) (upper s')
  end.

(** The exception classes the handlers of the scripts distinguish.  A class
    stands for itself and its subclasses, as an [except] clause reads it.
    The last two are outside [Exception]: [asyncio.CancelledError] derives
    from [BaseException] from Python 3.8 on, the version the page asks
    for. *)
Inductive exc_class : Type :=
  | TimeoutError          (* asyncio.TimeoutError *)
  | ValueError
  | OtherException        (* any other subclass of Exception *)
  | CancelledError        (* asyncio.CancelledError *)
  | OtherBaseException.   (* KeyboardInterrupt, SystemExit, GeneratorExit *)

(** [isinstance(e, Exception)], on the class. *)
Definition is_Exception (c : exc_class) : bool :=
  match c with
  | TimeoutError | ValueError | OtherException => true
  | CancelledError | OtherBaseException => false
  end.

Record exc : Type := Exc { class_of : exc_class; str_of : string }.

(** How a call ends: it returns a value, raises, or never comes back. *)
Inductive outcome (A : Type) : Type :=
  | Return (a : A)
  | Raise (e : exc)
  | Blocks.

Arguments Return {A} a.
Arguments Raise {A} e.
Arguments Blocks {A}.

End Py.

Export Py(outcome(..), exc(..), exc_class(..), class_of, str_of, is_Exception).

(** ** [flexible_browser_use.py] *)
Module Flexible.

(** The client objects of the three provider SDKs, with the arguments the
    constructors are called with.  An argument that a call site does not pass
    is [None]. *)
Record ChatOpenAI_args : Type := {
  base_url : option string;
  api_key : string;
  model : string;
  temperature : QArith_base.Q;
  default_headers : option (gmap string string)
}.

Record ChatAnthropic_args : Type := {
  anthropic_model_name : string;
  anthropic_temperature : QArith_base.Q;
  anthropic_timeout : N;
  anthropic_api_key : string
}.

Record ChatGoogle_args : Type := {
  google_model : string;
  google_temperature : QArith_base.Q;
  google_api_key : string
}.

Inductive llm : Type :=
  | ChatOpenAI (a : ChatOpenAI_args)
  | ChatAnthropic (a : ChatAnthropic_args)
  | ChatGoogleGenerativeAI (a : ChatGoogle_args).

Definition zero_temperature : QArith_base.Q := QArith_base.Qmake 0 1.

(** [model_name or os.getenv(var, fallback)] *)
Definition model_or_env (environ : gmap string string)
    (model_name : option string) (var fallback : string) : string :=
  if Py.truthy_opt model_name then default "" model_name
  else default fallback (environ !! var).

Definition create_openai_llm (environ : gmap string string)
    (model_name : option string) : outcome llm :=
  let api_key := environ !! "OPENAI_API_KEY" in
  if negb (Py.truthy_opt api_key) then
    Raise (Exc ValueError "OPENAI_API_KEY not found in environment variables")
  else
    let model := model_or_env environ model_name "OPENAI_MODEL" "gpt-4o" in
    Return (ChatOpenAI {|
      base_url := None;
      api_key := default "" api_key;
      model := model;
      temperature := zero_temperature;
      default_headers := None |}).

Definition create_anthropic_llm (environ : gmap string string)
    (model_name : option string) : outcome llm :=
  let api_key := environ !! "ANTHROPIC_API_KEY" in
  if negb (Py.truthy_opt api_key)
     || bool_decide (api_key = Some "your_anthropic_api_key_here") then
    Raise (Exc ValueError
      "ANTHROPIC_API_KEY not found or not configured in environment variables")
  else
    let model :=
      model_or_env environ model_name "ANTHROPIC_MODEL"
        "claude-3-5-sonnet-20240620" in
    Return (ChatAnthropic {|
      anthropic_model_name := model;
      anthropic_temperature := zero_temperature;
      anthropic_timeout := 60;
      anthropic_api_key := default "" api_key |}).

Definition create_google_llm (environ : gmap string string)
    (model_name : option string) : outcome llm :=
  let api_key := environ !! "GOOGLE_API_KEY" in
  if negb (Py.truthy_opt api_key)
     || bool_decide (api_key = Some "your_google_api_key_here") then
    Raise (Exc ValueError
      "GOOGLE_API_KEY not found or not configured in environment variables")
  else
    let model :=
      model_or_env environ model_name "GOOGLE_MODEL" "gemini-1.5-pro" in
    Return (ChatGoogleGenerativeAI {|
      google_model := model;
      google_temperature := zero_temperature;
      google_api_key := default "" api_key |}).

(** The optional OpenRouter headers: [extra_headers = {}] followed by the two
    independent [if] statements of [create_openrouter_llm]. *)
Definition openrouter_extra_headers (environ : gmap string string)
    : gmap string string :=
  let extra_headers : gmap string string := ∅ in
  let site_url := environ !! "OPENROUTER_SITE_URL" in
  let site_name := environ !! "OPENROUTER_SITE_NAME" in
  let extra_headers :=
    if Py.truthy_opt site_url
    then <["HTTP-Referer" := default "" site_url]> extra_headers
    else extra_headers in
  let extra_headers :=
    if Py.truthy_opt site_name
    then <["X-Title" := default "" site_name]> extra_headers
    else extra_headers in
  extra_headers.

Definition create_openrouter_llm (environ : gmap string string)
    (model_name : option string) : outcome llm :=
  let api_key := environ !! "OPENROUTER_API_KEY" in
  if negb (Py.truthy_opt api_key)
     || bool_decide (api_key = Some "your_openrouter_api_key_here") then
    Raise (Exc ValueError
      "OPENROUTER_API_KEY not found or not configured in environment variables")
  else
    let model :=
      model_or_env environ model_name "OPENROUTER_MODEL" "openai/gpt-4o" in
    let extra_headers := openrouter_extra_headers environ in
    Return (ChatOpenAI {|
      base_url := Some "https://openrouter.ai/api/v1";
      api_key := default "" api_key;
      model := model;
      temperature := zero_temperature;
      default_headers := Some extra_headers |}).

(** [get_available_providers]: the list grows by [append], one provider at a
    time, in the order of the four [if] statements. *)
Definition get_available_providers (environ : gmap string string)
    : list string :=
  let providers : list string := [] in
  let providers :=
    if Py.truthy_opt (environ !! "OPENAI_API_KEY")
    then providers ++ ["openai"] else providers in
  let providers :=
    if Py.truthy_opt (environ !! "ANTHROPIC_API_KEY")
       && negb (bool_decide (environ !! "ANTHROPIC_API_KEY"
                             = Some "your_anthropic_api_key_here"))
    then providers ++ ["anthropic"] else providers in
  let providers :=
    if Py.truthy_opt (environ !! "GOOGLE_API_KEY")
       && negb (bool_decide (environ !! "GOOGLE_API_KEY"
                             = Some "your_google_api_key_here"))
    then providers ++ ["google"] else providers in
  let providers :=
    if Py.truthy_opt (environ !! "OPENROUTER_API_KEY")
       && negb (bool_decide (environ !! "OPENROUTER_API_KEY"
                             = Some "your_openrouter_api_key_here"))
    then providers ++ ["openrouter"] else providers in
  providers.

(** The dict [model_suggestions] of [interactive_provider_selection] and its
    use [model_suggestions.get(provider, [])]. *)
Definition model_suggestions : gmap string (list string) :=
  list_to_map [
    ("openai", ["gpt-4o"; "gpt-4o-mini"; "gpt-4-turbo"; "gpt-3.5-turbo"]);
    ("anthropic", ["claude-3-5-sonnet-20240620"; "claude-3-5-haiku-20241022";
                   "claude-3-opus-20240229"]);
    ("google", ["gemini-1.5-pro"; "gemini-1.5-flash"; "gemini-pro"]);
    ("openrouter", ["openai/gpt-4o"; "anthropic/claude-3-5-sonnet";
                    "google/gemini-pro"; "meta-llama/llama-3.1-405b"])
  ].

Definition suggestions (provider : string) : list string :=
  default [] (model_suggestions !! provider).

(** *** The external agent and the coroutines that run it *)

(** What [agent.run()] hands back: only its truth value and its text are
    used by the scripts. *)
Record history : Type := { history_truthy : bool; history_str : string }.

(** One construction-and-run of the external [Agent]. *)
Record agent_call : Type := {
  call_task : string;
  call_llm : llm;
  call_browser_config : option (gmap string string)
}.

(** How a pending call ends when it is driven: after [after] time units it
    returns or raises, or it never ends. *)
Inductive completion (A : Type) : Type :=
  | Returns (after : N) (a : A)
  | Raises (after : N) (e : exc)
  | Never.

Arguments Returns {A} after a.
Arguments Raises {A} after e.
Arguments Never {A}.

(** What a pending call does: how it ends when it is left alone, and how it
    ends once it is cancelled [at] time units after its start.  Cancelling
    throws [CancelledError] into the call; the call lets it through
    ([Raises] with that class), or answers with a value or another exception
    all the same, or never ends.  The time of [cancelled at] counts from the
    cancellation. *)
Record pending (A : Type) : Type := {
  left_alone : completion A;
  cancelled : N -> completion A
}.

Arguments left_alone {A} p.
Arguments cancelled {A} p _.

(** The external library: what [Agent(task=.., llm=.., ..).run()] does. *)
Definition agent_oracle : Type :=
  string -> llm -> option (gmap string string) -> pending history.

(** A coroutine object: the agent runs it starts once it is awaited, and
    what it does then. *)
Record coroutine (A : Type) : Type := {
  invokes : list agent_call;
  pending_of : pending A
}.

Arguments invokes {A} c.
Arguments pending_of {A} c.

(** What an execution leaves behind: the agent runs it started, in order, and
    the time it spent waiting for them. *)
Record trace : Type := { invoked : list agent_call; waited : N }.

Definition no_trace : trace := {| invoked := []; waited := 0 |}.

(** Computations that return, raise or block, and extend the trace. *)
Definition M (A : Type) : Type := trace -> outcome A * trace.

Definition ret {A} (a : A) : M A := fun t => (Return a, t).

Definition raise {A} (e : exc) : M A := fun t => (Raise e, t).

Definition bind {A B} (m : M A) (k : A -> M B) : M B :=
  fun t =>
    match m t with
    | (Return a, t') => k a t'
    | (Raise e, t') => (Raise e, t')
    | (Blocks, t') => (Blocks, t')
    end.

(** [try: body except ... as e: handler e]; [handler] answers [None] for an
    exception that no clause matches, which then propagates. *)
Definition try_except {A} (body : M A) (handler : exc -> option (M A)) : M A :=
  fun t =>
    match body t with
    | (Raise e, t') =>
        match handler e with
        | Some h => h t'
        | None => (Raise e, t')
        end
    | r => r
    end.

(** A call that returns or raises at once. *)
Definition lift {A} (r : outcome A) : M A := fun t => (r, t).

Definition started {A} (c : coroutine A) (t : trace) (spent : N) : trace :=
  {| invoked := invoked t ++ invokes c; waited := waited t + spent |}.

(** [await c]: nobody cancels the call. *)
Definition await {A} (c : coroutine A) : M A :=
  fun t =>
    match left_alone (pending_of c) with
    | Returns d a => (Return a, started c t d)
    | Raises d e => (Raise e, started c t d)
    | Never => (Blocks, started c t 0)
    end.

(** [await asyncio.wait_for(c, timeout)].  A call that ends before the
    deadline has its value or exception passed on.  Otherwise the call is
    cancelled at the deadline and [wait_for] waits until it has ended: a
    call that ends cancelled is answered with [asyncio.TimeoutError()],
    whose text is empty; a value or another exception of the cancelled call
    is passed on (so from Python 3.9 on; Python 3.8 answers a value of the
    cancelled call with the [TimeoutError] too); and while the cancelled
    call does not end, neither does the wait. *)
Definition wait_for {A} (c : coroutine A) (timeout : N) : M A :=
  fun t =>
    let expired :=
      match cancelled (pending_of c) timeout with
      | Returns d a => (Return a, started c t (timeout + d))
      | Raises d e =>
          match class_of e with
          | CancelledError =>
              (Raise (Exc TimeoutError ""), started c t (timeout + d))
          | _ => (Raise e, started c t (timeout + d))
          end
      | Never => (Blocks, started c t timeout)
      end in
    match left_alone (pending_of c) with
    | Returns d a => if d <? timeout then (Return a, started c t d) else expired
    | Raises d e => if d <? timeout then (Raise e, started c t d) else expired
    | Never => expired
    end.

(** [run_task_with_llm(task, llm, browser_config=None)]: one [Agent] is built
    (with a browser session when [browser_config] is a non-empty dict) and
    its [run()] awaited. *)
Definition run_task_with_llm (agent : agent_oracle) (task : string)
    (llm0 : llm) (browser_config : option (gmap string string))
    : coroutine history :=
  let profile :=
    match browser_config with
    | Some cfg => if bool_decide (cfg = ∅) then None else Some cfg
    | None => None
    end in
  {| invokes := [ {| call_task := task; call_llm := llm0;
                     call_browser_config := profile |} ];
     pending_of := agent task llm0 profile |}.

End Flexible.

Notation "'let*' x := m 'in' k" := (Flexible.bind m (fun x => k))
  (at level 10, x name, m at level 100, k at level 200, only parsing).

(** ** The Streamlit session and the process around it *)
Module Streamlit.

(** One entry of [st.session_state.chat_history]. *)
Record message : Type := {
  role : string;
  content : string;
  timestamp : string
}.

(** [st.session_state] with the keys of [initialize_session_state];
    [browser_use_ui.py] has the first five only. *)
Record session_state : Type := {
  chat_history : list message;
  current_task : string;
  task_running : bool;
  llm_provider : string;
  model_name : string;
  last_error : option string;
  task_count : N
}.

(** The process state the scripts read and write: [os.environ], the file
    [.env] ([None] when it does not exist), whether opening it for writing
    fails (and with which [OSError] text), the session, and the texts shown
    with [st.error]. *)
Record world : Type := {
  environ : gmap string string;
  dotenv_file : option string;
  write_error : option string;
  session : session_state;
  shown_errors : list string
}.

Definition with_environ (e : gmap string string) (w : world) : world :=
  {| environ := e; dotenv_file := dotenv_file w; write_error := write_error w;
     session := session w; shown_errors := shown_errors w |}.

Definition with_dotenv_file (f : option string) (w : world) : world :=
  {| environ := environ w; dotenv_file := f; write_error := write_error w;
     session := session w; shown_errors := shown_errors w |}.

Definition with_session (s : session_state) (w : world) : world :=
  {| environ := environ w; dotenv_file := dotenv_file w;
     write_error := write_error w; session := s;
     shown_errors := shown_errors w |}.

(** [st.error(text)] *)
Definition st_error (text : string) (w : world) : world :=
  {| environ := environ w; dotenv_file := dotenv_file w;
     write_error := write_error w; session := session w;
     shown_errors := shown_errors w ++ [text] |}.

(** [with open('.env', 'w') as f: f.write(text)] *)
Definition write_dotenv (text : string) (w : world) : outcome world :=
  match write_error w with
  | Some why => Raise (Exc OtherException why)
  | None => Return (with_dotenv_file (Some text) w)
  end.

(** [load_dotenv(override=True)]: the reader [load_dotenv] applied to the
    text of [.env]; nothing happens when the file does not exist.  The file
    read is the one [save_api_keys] writes: the scripts are run from their
    own directory, which [run_ui.py] checks. *)
Definition reload_environment
    (load_dotenv : string -> gmap string string -> gmap string string)
    (w : world) : world :=
  match dotenv_file w with
  | Some text => with_environ (load_dotenv text (environ w)) w
  | None => w
  end.

Definition set_task_running (b : bool) (s : session_state) : session_state :=
  {| chat_history := chat_history s; current_task := current_task s;
     task_running := b; llm_provider := llm_provider s;
     model_name := model_name s; last_error := last_error s;
     task_count := task_count s |}.

Definition set_current_task (t : string) (s : session_state) : session_state :=
  {| chat_history := chat_history s; current_task := t;
     task_running := task_running s; llm_provider := llm_provider s;
     model_name := model_name s; last_error := last_error s;
     task_count := task_count s |}.

Definition set_last_error (e : option string) (s : session_state)
    : session_state :=
  {| chat_history := chat_history s; current_task := current_task s;
     task_running := task_running s; llm_provider := llm_provider s;
     model_name := model_name s; last_error := e;
     task_count := task_count s |}.

Definition set_task_count (n : N) (s : session_state) : session_state :=
  {| chat_history := chat_history s; current_task := current_task s;
     task_running := task_running s; llm_provider := llm_provider s;
     model_name := model_name s; last_error := last_error s;
     task_count := n |}.

(** [st.session_state.chat_history.append({...})] *)
Definition append_message (m : message) (s : session_state) : session_state :=
  {| chat_history := chat_history s ++ [m]; current_task := current_task s;
     task_running := task_running s; llm_provider := llm_provider s;
     model_name := model_name s; last_error := last_error s;
     task_count := task_count s |}.

(** How a run of the script ends: it goes on to the rest of the page, calls
    [st.stop()], calls [st.rerun()], dies of an exception nobody caught, or
    hangs in a call that never returns. *)
Inductive script_end : Type := Continues | Stops | Reruns | Crashes | Hangs.

End Streamlit.

(** ** [browser_use_ui_fixed.py] *)
Module Fixed.
Import Flexible Streamlit.

Definition placeholders : list string :=
  ["your_api_key_here"; "your_openai_api_key_here";
   "your_anthropic_api_key_here"].

(** [validate_api_key(key_value)] *)
Definition validate_api_key (key_value : option string) : bool :=
  let key := default "" key_value in
  if negb (Py.truthy_opt key_value) || String.eqb (Py.strip key) "" then false
  else if bool_decide (key ∈ placeholders) then false
  else if (String.length (Py.strip key) <? 10)%nat then false
  else true.

(** [key.strip() if key else ''] *)
Definition stripped_or_empty (key : option string) : string :=
  if Py.truthy_opt key then Py.strip (default "" key) else "".

(** The f-string [env_content] of [save_api_keys]. *)
Definition env_content (openai_key anthropic_key google_key openrouter_key
    : option string) (w : world) : string :=
  "# === API KEYS ===
OPENAI_API_KEY=" +:+ stripped_or_empty openai_key +:+ "
ANTHROPIC_API_KEY=" +:+ stripped_or_empty anthropic_key +:+ "
GOOGLE_API_KEY=" +:+ stripped_or_empty google_key +:+ "
OPENROUTER_API_KEY=" +:+ stripped_or_empty openrouter_key +:+ "

# === PROVIDER SELECTION ===
LLM_PROVIDER=" +:+ llm_provider (session w) +:+ "

# === MODEL SELECTION ===
OPENAI_MODEL=" +:+ default "gpt-4o" (environ w !! "OPENAI_MODEL") +:+ "
ANTHROPIC_MODEL="
  +:+ default "claude-3-5-sonnet-20240620" (environ w !! "ANTHROPIC_MODEL")
  +:+ "
GOOGLE_MODEL=" +:+ default "gemini-1.5-pro" (environ w !! "GOOGLE_MODEL") +:+ "
OPENROUTER_MODEL="
  +:+ default "openai/gpt-4o" (environ w !! "OPENROUTER_MODEL") +:+ "

# === BROWSER USE SETTINGS ===
BROWSER_USE_LOGGING_LEVEL=debug
ANONYMIZED_TELEMETRY=false
INTERACTIVE_MODE=false

# === OPENROUTER SPECIFIC ===
OPENROUTER_SITE_URL=https://your-site.com
OPENROUTER_SITE_NAME=Browser Use Automation
".

Section Settings.

(** [dotenv.load_dotenv(override=True)] on the text of [.env]: the
    environment it leaves. *)
Variable load_dotenv : string -> gmap string string -> gmap string string.

(** [save_api_keys(openai_key, anthropic_key, google_key, openrouter_key)]:
    the returned flag and the state it leaves. *)
Definition save_api_keys (openai_key anthropic_key google_key openrouter_key
    : option string) (w : world) : bool * world :=
  let valid_keys :=
    [validate_api_key openai_key; validate_api_key anthropic_key;
     validate_api_key google_key; validate_api_key openrouter_key] in
  if negb (existsb id valid_keys) then
    (false, st_error "❌ Please provide at least one valid API key" w)
  else
    let text :=
      env_content openai_key anthropic_key google_key openrouter_key w in
    match write_dotenv text w with
    | Return w' => (true, reload_environment load_dotenv w')
    | Raise e => (false, st_error ("❌ Error saving API keys: " +:+ str_of e) w)
    | Blocks => (false, w)
    end.

End Settings.

(** What the page reads back from the environment: the initial values of the
    four key fields of [main] ([os.getenv(KEY, "")]) and the provider and
    model of [initialize_session_state]. *)
Record settings : Type := {
  openai_credential : string;
  anthropic_credential : string;
  google_credential : string;
  openrouter_credential : string;
  provider_selection : string;
  model_selection : string
}.

Definition load (w : world) : settings :=
  {| openai_credential := default "" (environ w !! "OPENAI_API_KEY");
     anthropic_credential := default "" (environ w !! "ANTHROPIC_API_KEY");
     google_credential := default "" (environ w !! "GOOGLE_API_KEY");
     openrouter_credential := default "" (environ w !! "OPENROUTER_API_KEY");
     provider_selection := default "openai" (environ w !! "LLM_PROVIDER");
     model_selection := "" |}.

(** [get_model_options(provider)] *)
Definition models : gmap string (list string) :=
  list_to_map [
    ("openai", ["gpt-4o"; "gpt-4o-mini"; "gpt-4-turbo"; "gpt-4";
                "gpt-3.5-turbo"]);
    ("anthropic", ["claude-3-5-sonnet-20240620"; "claude-3-5-haiku-20241022";
                   "claude-3-opus-20240229"; "claude-3-sonnet-20240229";
                   "claude-3-haiku-20240307"]);
    ("google", ["gemini-1.5-pro"; "gemini-1.5-flash"; "gemini-pro";
                "gemini-pro-vision"]);
    ("openrouter", ["openai/gpt-4o"; "openai/gpt-4o-mini";
                    "anthropic/claude-3-5-sonnet"; "anthropic/claude-3-5-haiku";
                    "google/gemini-pro"; "meta-llama/llama-3.1-405b";
                    "mistralai/mistral-large"; "cohere/command-r-plus"])
  ].

Definition get_model_options (provider : string) : list string :=
  default [] (models !! provider).

(** The [if / elif] chain over the provider name. *)
Definition create_llm_for (environ : gmap string string) (provider : string)
    (model : option string) : outcome llm :=
  if String.eqb provider "openai" then create_openai_llm environ model
  else if String.eqb provider "anthropic" then create_anthropic_llm environ model
  else if String.eqb provider "google" then create_google_llm environ model
  else if String.eqb provider "openrouter" then
    create_openrouter_llm environ model
  else Raise (Exc ValueError ("Unsupported provider: " +:+ provider)).

Definition timed_out_text : string :=
  "Task timed out after 5 minutes. Please try a simpler task.".

(** The body of the [try] of [run_browser_task].  A client object is truthy,
    so the check [if not llm] never raises. *)
Definition run_browser_task_body (environ : gmap string string)
    (agent : agent_oracle) (task provider : string) (model : option string)
    : M (option history * option string) :=
  if negb (Py.truthy task) || negb (Py.truthy (Py.strip task)) then
    raise (Exc ValueError "Task cannot be empty")
  else if negb (Py.truthy provider) then
    raise (Exc ValueError "Provider must be specified")
  else
    let* llm0 := lift (create_llm_for environ provider model) in
    let* result :=
      wait_for (run_task_with_llm agent (Py.strip task) llm0 None) 300 in
    ret (Some result, None).

(** The three [except] clauses, in their order: [asyncio.TimeoutError],
    [ValueError], [Exception].  An exception outside [Exception] matches
    none of them. *)
Definition run_browser_task_handlers (e : exc)
    : option (M (option history * option string)) :=
  match class_of e with
  | TimeoutError => Some (ret (None, Some timed_out_text))
  | ValueError => Some (ret (None, Some ("Configuration error: " +:+ str_of e)))
  | OtherException => Some (ret (None, Some ("Execution error: " +:+ str_of e)))
  | CancelledError | OtherBaseException => None
  end.

(** [run_browser_task(task, provider, model=None)] *)
Definition run_browser_task (environ : gmap string string)
    (agent : agent_oracle) (task provider : string) (model : option string)
    : M (option history * option string) :=
  try_except (run_browser_task_body environ agent task provider model)
             run_browser_task_handlers.

(** [str(result) if result else "Task completed successfully!"] *)
Definition result_text (result : option history) : string :=
  match result with
  | Some h =>
      if history_truthy h then history_str h
      else "Task completed successfully!"
  | None => "Task completed successfully!"
  end.

(** The block [# Handle task execution] of [main].  [now] and [later] are the
    two readings of the clock; the spinner only draws.  The flag
    [task_running] is set back after the [try] statement, which has an
    [except Exception] clause and no [finally]: an exception that the clause
    lets through ends the run of the script with the flag set. *)
Definition handle_task_execution (agent : agent_oracle) (now later : string)
    (start_button : bool) (task_input provider : string) (w : world)
    : script_end * world * trace :=
  if start_button && Py.truthy task_input && Py.truthy (Py.strip task_input)
  then
    if negb (validate_api_key
               (environ w !! (Py.upper provider +:+ "_API_KEY"))) then
      (Stops,
       st_error ("❌ " +:+ Py.upper provider
                 +:+ " API key is not configured. Please add it in the sidebar.")
                w,
       no_trace)
    else
      let s := append_message {| role := "user";
                                 content := Py.strip task_input;
                                 timestamp := now |} (session w) in
      let s := set_task_running true s in
      let call :=
        try_except
          (let* r := run_browser_task (environ w) agent (Py.strip task_input)
                       provider (Some (model_name s)) in
           let '(result, error) := r in
           if Py.truthy_opt error then
             ret (set_last_error error
                    (append_message
                       {| role := "assistant";
                          content := "❌ Error: " +:+ default "" error;
                          timestamp := later |} s))
           else
             ret (set_last_error None
                    (set_task_count (task_count s + 1)
                       (append_message
                          {| role := "assistant";
                             content := "✅ Task completed!

" +:+ result_text result;
                             timestamp := later |} s))))
          (fun e =>
             let error_msg := "Unexpected error: " +:+ str_of e in
             if is_Exception (class_of e) then
               Some (ret (set_last_error (Some error_msg)
                            (append_message
                               {| role := "assistant";
                                  content := "❌ " +:+ error_msg;
                                  timestamp := later |} s)))
             else None) in
      match call no_trace with
      | (Return s', t) => (Reruns, with_session (set_task_running false s') w, t)
      | (Raise _, t) => (Crashes, with_session s w, t)
      | (Blocks, t) => (Hangs, with_session s w, t)
      end
  else (Continues, w, no_trace).

End Fixed.

(** ** [browser_use_ui.py] *)
Module Original.
Import Flexible Streamlit.

(** [f"{key}"] of a [None | str] *)
Definition formatted (key : option string) : string := default "None" key.

(** The f-string [env_content] of [save_api_keys]. *)
Definition env_content (openai_key anthropic_key google_key openrouter_key
    : option string) (w : world) : string :=
  "# === API KEYS ===
OPENAI_API_KEY=" +:+ formatted openai_key +:+ "
ANTHROPIC_API_KEY=" +:+ formatted anthropic_key +:+ "
GOOGLE_API_KEY=" +:+ formatted google_key +:+ "
OPENROUTER_API_KEY=" +:+ formatted openrouter_key +:+ "

# === PROVIDER SELECTION ===
LLM_PROVIDER=" +:+ llm_provider (session w) +:+ "

# === MODEL SELECTION ===
OPENAI_MODEL=" +:+ default "gpt-4o" (environ w !! "OPENAI_MODEL") +:+ "
ANTHROPIC_MODEL="
  +:+ default "claude-3-5-sonnet-20240620" (environ w !! "ANTHROPIC_MODEL")
  +:+ "
GOOGLE_MODEL=" +:+ default "gemini-1.5-pro" (environ w !! "GOOGLE_MODEL") +:+ "
OPENROUTER_MODEL="
  +:+ default "openai/gpt-4o" (environ w !! "OPENROUTER_MODEL") +:+ "

# === BROWSER USE SETTINGS ===
BROWSER_USE_LOGGING_LEVEL=debug
ANONYMIZED_TELEMETRY=false
INTERACTIVE_MODE=false

# === OPENROUTER SPECIFIC ===
OPENROUTER_SITE_URL=https://your-site.com
OPENROUTER_SITE_NAME=Browser Use Automation
".

Section Settings.

Variable load_dotenv : string -> gmap string string -> gmap string string.

(** [save_api_keys(...)]: no validation and no handler; it returns [None]. *)
Definition save_api_keys (openai_key anthropic_key google_key openrouter_key
    : option string) (w : world) : outcome world :=
  let text :=
    env_content openai_key anthropic_key google_key openrouter_key w in
  match write_dotenv text w with
  | Return w' => Return (reload_environment load_dotenv w')
  | Raise e => Raise e
  | Blocks => Blocks
  end.

End Settings.

(** [get_model_options(provider)] *)
Definition models : gmap string (list string) :=
  list_to_map [
    ("openai", ["gpt-4o"; "gpt-4o-mini"; "gpt-4-turbo"; "gpt-3.5-turbo"]);
    ("anthropic", ["claude-3-5-sonnet-20240620"; "claude-3-5-haiku-20241022";
                   "claude-3-opus-20240229"]);
    ("google", ["gemini-1.5-pro"; "gemini-1.5-flash"; "gemini-pro"]);
    ("openrouter", ["openai/gpt-4o"; "anthropic/claude-3-5-sonnet";
                    "google/gemini-pro"; "meta-llama/llama-3.1-405b";
                    "mistralai/mistral-large"; "cohere/command-r-plus"])
  ].

Definition get_model_options (provider : string) : list string :=
  default [] (models !! provider).

Definition create_llm_for (environ : gmap string string) (provider : string)
    (model : option string) : outcome llm :=
  if String.eqb provider "openai" then create_openai_llm environ model
  else if String.eqb provider "anthropic" then create_anthropic_llm environ model
  else if String.eqb provider "google" then create_google_llm environ model
  else if String.eqb provider "openrouter" then
    create_openrouter_llm environ model
  else Raise (Exc ValueError ("Unsupported provider: " +:+ provider)).

(** [run_browser_task(task, provider, model=None)]: one handler,
    [except Exception as e: return None, str(e)], and no deadline. *)
Definition run_browser_task (environ : gmap string string)
    (agent : agent_oracle) (task provider : string) (model : option string)
    : M (option history * option string) :=
  try_except
    (let* llm0 := lift (create_llm_for environ provider model) in
     let* result := await (run_task_with_llm agent task llm0 None) in
     ret (Some result, None))
    (fun e =>
       if is_Exception (class_of e) then Some (ret (None, Some (str_of e)))
       else None).

(** The block [# Handle task execution] of [main]. *)
Definition handle_task_execution (agent : agent_oracle) (now later : string)
    (start_button : bool) (task_input provider : string) (w : world)
    : script_end * world * trace :=
  if start_button && Py.truthy (Py.strip task_input) then
    let s := append_message {| role := "user";
                               content := Py.strip task_input;
                               timestamp := now |} (session w) in
    let s := set_current_task (Py.strip task_input) s in
    let s := set_task_running true s in
    let call :=
      try_except
        (let* r := run_browser_task (environ w) agent (Py.strip task_input)
                     provider (Some (model_name s)) in
         let '(result, error) := r in
         if Py.truthy_opt error then
           ret (append_message
                  {| role := "assistant";
                     content := "❌ Error: " +:+ default "" error;
                     timestamp := later |} s)
         else
           ret (append_message
                  {| role := "assistant";
                     content := "✅ Task completed!

" +:+ Fixed.result_text result;
                     timestamp := later |} s))
        (fun e =>
           if is_Exception (class_of e) then
             Some (ret (append_message
                          {| role := "assistant";
                             content := "❌ Unexpected error: " +:+ str_of e;
                             timestamp := later |} s))
           else None) in
    match call no_trace with
    | (Return s', t) =>
        (Reruns,
         with_session (set_current_task "" (set_task_running false s')) w, t)
    | (Raise _, t) => (Crashes, with_session s w, t)
    | (Blocks, t) => (Hangs, with_session s w, t)
    end
  else (Continues, w, no_trace).

End Original.

(** ** The settings file as the specification describes it *)
Module Dotenv.

(** Modelled from the spec: the reader of the settings file, which the
    scripts take from the library python-dotenv ([load_dotenv]); its code is
    not part of the repository.  The specification describes the file as
    plain text with one KEY=VALUE pair per line, grouped under comment
    lines, and says that malformed lines are ignored.  Accordingly: the text
    is cut at line feeds; a line that starts with a hash sign is a comment; a
    line without an equals sign, or with nothing before it, is malformed and
    skipped; any other line binds the text before its first equals sign to
    the text after it.  With [override=True] a binding of the file replaces
    the one of the environment, and a later line replaces an earlier one. *)

(** [text.split(LF)] *)
Fixpoint lines (text : string) : list string :=
  match text with
  | EmptyString => [EmptyString]
  | String c rest =>
      if Ascii.eqb c "010" then EmptyString :: lines rest
      else match lines rest with
           | l :: ls => String c l :: ls
           | [] => [String c EmptyString]
           end
  end.

(** The text before and after the first equals sign. *)
Fixpoint cut_at_equals (line : string) : option (string * string) :=
  match line with
  | EmptyString => None
  | String c rest =>
      if Ascii.eqb c "=" then Some (EmptyString, rest)
      else match cut_at_equals rest with
           | Some (k, v) => Some (String c k, v)
           | None => None
           end
  end.

Definition parse_line (line : string) : option (string * string) :=
  match line with
  | String "#" _ => None
  | _ =>
      match cut_at_equals line with
      | Some (EmptyString, _) => None
      | binding => binding
      end
  end.

Definition parse (text : string) : list (string * string) :=
  omap parse_line (lines text).

Definition bind_all (bindings : list (string * string))
    (environ : gmap string string) : gmap string string :=
  foldl (fun env kv => <[kv.1 := kv.2]> env) environ bindings.

Definition load_dotenv (text : string) (environ : gmap string string)
    : gmap string string :=
  bind_all (parse text) environ.

End Dotenv.

(** ** The vocabulary of the specification *)
Module Spec.

(** The fixed enumeration of providers. *)
Definition enumeration : list string :=
  ["openai"; "anthropic"; "google"; "openrouter"].

(** The environment variable that holds a provider's credential; [main]
    builds it as [provider.upper() + "_API_KEY"]. *)
Definition credential_variable (provider : string) : string :=
  Py.upper provider +:+ "_API_KEY".

Definition minimum_length : nat := 10.

(** The specification's reading of a configured credential, word for word:
    non-empty, not equal to any reserved placeholder, and of at least the
    minimum length. *)
Definition configured_as_specified (credential : string) : bool :=
  negb (String.eqb credential "")
  && negb (bool_decide (credential ∈ Fixed.placeholders))
  && (minimum_length <=? String.length credential)%nat.

(** The placeholder [get_available_providers] compares a provider's
    credential with; it has none for openai. *)
Definition own_placeholder (provider : string) : option string :=
  if String.eqb provider "openai" then None
  else Some ("your_" +:+ provider +:+ "_api_key_here").

(** The test [get_available_providers] applies to a provider: its credential
    is set, non-empty and differs from the provider's own placeholder. *)
Definition listed (environ : gmap string string) (provider : string) : bool :=
  let credential := environ !! credential_variable provider in
  Py.truthy_opt credential
  && negb (bool_decide (credential = own_placeholder provider)).

(** A value of the environment that counts: set and non-empty. *)
Definition present (value : option string) : option string :=
  if Py.truthy_opt value then value else None.

(** A dispatcher result that reports an execution error. *)
Definition is_execution_error (r : option Flexible.history * option string)
    : Prop :=
  ∃ text, r = (None, Some ("Execution error: " +:+ text)).

(** The text a handler of [run_browser_task] answers an instance of
    [Exception] with: the fixed text of the first clause, or the label of
    the second or the third before the text of the exception. *)
Definition reported (e : exc) : string :=
  match class_of e with
  | TimeoutError => Fixed.timed_out_text
  | ValueError => "Configuration error: " +:+ str_of e
  | _ => "Execution error: " +:+ str_of e
  end.

(** A cancelled call that ends by letting the [CancelledError] through. *)
Definition gives_way {A} (c : Flexible.completion A) : Prop :=
  ∃ d text, c = Flexible.Raises d (Exc CancelledError text).


(** A cancelled call that ends with a value, with an instance of
    [Exception], or cancelled. *)
Definition winds_up {A} (c : Flexible.completion A) : Prop :=
  match c with
  | Flexible.Returns _ _ => True
  | Flexible.Raises _ e => class_of e ≠ OtherBaseException
  | Flexible.Never => False
  end.

(** A pending call from which a wait with the deadline [timeout] comes back
    with a value or with an instance of [Exception]: the call ends well
    before the deadline, or it is still pending then and, cancelled, winds
    up. *)
Definition comes_back {A} (p : Flexible.pending A) (timeout : N) : Prop :=
  match Flexible.left_alone p with
  | Flexible.Returns d _ =>
      d < timeout ∨ winds_up (Flexible.cancelled p timeout)
  | Flexible.Raises d e =>
      (d < timeout ∧ is_Exception (class_of e) = true)
      ∨ (timeout ≤ d ∧ winds_up (Flexible.cancelled p timeout))
  | Flexible.Never => winds_up (Flexible.cancelled p timeout)
  end.

(** A pending call that is not over before the deadline. *)
Definition overruns {A} (c : Flexible.completion A) (timeout : N) : Prop :=
  match c with
  | Flexible.Returns d _ | Flexible.Raises d _ => timeout ≤ d
  | Flexible.Never => True
  end.

(** The start button is pressed on a task that is not blank, and the
    credential of the chosen provider passes [validate_api_key]: the block
    of [main] goes on to dispatch the task. *)
Definition dispatches (start_button : bool) (task_input provider : string)
    (w : Streamlit.world) : bool :=
  start_button && Py.truthy task_input && Py.truthy (Py.strip task_input)
  && Fixed.validate_api_key
       (Streamlit.environ w !! credential_variable provider).

(** A call that has come back with a value or with an instance of
    [Exception]. *)
Definition answered {A} (r : outcome A) : Prop :=
  match r with
  | Return _ => True
  | Raise e => is_Exception (class_of e) = true
  | Blocks => False
  end.

(** No line feed occurs in the text. *)
Fixpoint no_line_feed (s : string) : bool :=
  match s with
  | EmptyString => true
  | String c s' => negb (Ascii.eqb c "010") && no_line_feed s'
  end.

(** The lines of a text file, each closed by a line feed. *)
Fixpoint unlines (ls : list string) : string :=
  match ls with
  | [] => ""
  | l :: ls' => l +:+ String "010" (unlines ls')
  end.

(** One line of a settings file: a comment, an empty line, or the
    assignment of a value to a name. *)
Inductive entry : Type :=
  | Comment (text : string)
  | Blank
  | Setting (name value : string).

Definition render (e : entry) : string :=
  match e with
  | Comment text => "#" +:+ text
  | Blank => ""
  | Setting name value => name +:+ "=" +:+ value
  end.

(** Every character of the text passes the test. *)
Fixpoint every (test : ascii → bool) (s : string) : bool :=
  match s with
  | EmptyString => true
  | String c s' => test c && every test s'
  end.

(** The characters of the names of the settings: capitals, digits and the
    underscore. *)
Definition name_char (c : ascii) : bool :=
  let n := N_of_ascii c in
  ((65 <=? n) && (n <=? 90)) || ((48 <=? n) && (n <=? 57)) || (n =? 95).

(** Letters, digits, and the signs [- . / : _]. *)
Definition plain_char (c : ascii) : bool :=
  let n := N_of_ascii c in
  ((97 <=? n) && (n <=? 122)) || ((65 <=? n) && (n <=? 90))
  || ((45 <=? n) && (n <=? 58)) || (n =? 95).

(** A value made of plain characters and blanks, with no blank at either
    end: no quote, hash sign, dollar sign, backslash or line break occurs
    in it. *)
Definition plain_value (s : string) : bool :=
  every (fun c => plain_char c || Ascii.eqb c " ") s
  && String.eqb (Py.strip s) s.

Definition well_formed (e : entry) : bool :=
  match e with
  | Comment text =>
      every (fun c => plain_char c || Ascii.eqb c " " || Ascii.eqb c "=") text
  | Blank => true
  | Setting name value =>
      negb (String.eqb name "") && every name_char name && plain_value value
  end.

(** What an entry does to the environment when the file is read with
    [override=True]. *)
Definition assign (environ : gmap string string) (e : entry)
    : gmap string string :=
  match e with
  | Setting name value => <[name := value]> environ
  | _ => environ
  end.

(** What the scripts rely on of the reader of the settings file, the
    library function [load_dotenv(override=True)]: in a file of comment
    lines, empty lines and assignments of plain values to names, every
    assignment is taken as written and replaces what the environment held,
    a later one replacing an earlier one.  Nothing is asked of the reader
    on other files: quotes, hash signs, dollar signs and backslashes in a
    value are the reader's business. *)
Definition reads_settings
    (load_dotenv : string → gmap string string → gmap string string) : Prop :=
  ∀ entries environ,
    forallb well_formed entries = true →
    load_dotenv (unlines (map render entries)) environ
    = foldl assign environ entries.

(** The settings file [save_api_keys] writes, given the four credentials,
    the provider and the four models it puts in. *)
Definition settings_entries (k1 k2 k3 k4 p m1 m2 m3 m4 : string)
    : list entry :=
  [ Comment " === API KEYS ===";
    Setting "OPENAI_API_KEY" k1;
    Setting "ANTHROPIC_API_KEY" k2;
    Setting "GOOGLE_API_KEY" k3;
    Setting "OPENROUTER_API_KEY" k4;
    Blank;
    Comment " === PROVIDER SELECTION ===";
    Setting "LLM_PROVIDER" p;
    Blank;
    Comment " === MODEL SELECTION ===";
    Setting "OPENAI_MODEL" m1;
    Setting "ANTHROPIC_MODEL" m2;
    Setting "GOOGLE_MODEL" m3;
    Setting "OPENROUTER_MODEL" m4;
    Blank;
    Comment " === BROWSER USE SETTINGS ===";
    Setting "BROWSER_USE_LOGGING_LEVEL" "debug";
    Setting "ANONYMIZED_TELEMETRY" "false";
    Setting "INTERACTIVE_MODE" "false";
    Blank;
    Comment " === OPENROUTER SPECIFIC ===";
    Setting "OPENROUTER_SITE_URL" "https://your-site.com";
    Setting "OPENROUTER_SITE_NAME" "Browser Use Automation" ].

(** The five values [save_api_keys] takes from the session and the
    environment: the provider and the four models. *)
Definition kept_values (w : Streamlit.world) : list string :=
  [ Streamlit.llm_provider (Streamlit.session w);
    default "gpt-4o" (Streamlit.environ w !! "OPENAI_MODEL");
    default "claude-3-5-sonnet-20240620"
      (Streamlit.environ w !! "ANTHROPIC_MODEL");
    default "gemini-1.5-pro" (Streamlit.environ w !! "GOOGLE_MODEL");
    default "openai/gpt-4o" (Streamlit.environ w !! "OPENROUTER_MODEL") ].

End Spec.

(** ** Concrete inputs for the examples *)
Module Examples.
Import Flexible Streamlit.

(** An environment with an OpenRouter credential and a site URL, and no
    site name. *)
Definition site_url_only : gmap string string :=
  <["OPENROUTER_API_KEY" := "sk-or-validkey1234"]>
  (<["OPENROUTER_SITE_URL" := "https://example.org"]> ∅).

(** An environment with an OpenAI credential only. *)
Definition openai_only : gmap string string :=
  {[ "OPENAI_API_KEY" := "sk-validkey1234" ]}.

(** The client [create_openai_llm] builds in [openai_only]. *)
Definition openai_client : llm :=
  ChatOpenAI {| base_url := None; api_key := "sk-validkey1234";
                model := "gpt-4o"; temperature := zero_temperature;
                default_headers := None |}.

(** A cancelled call that lets the [CancelledError] through at once. *)
Definition at_once {A} : N -> completion A :=
  fun _ => Raises 0 (Exc CancelledError "").

(** An agent whose every run raises [e] after three time units. *)
Definition agent_raising (e : exc) : agent_oracle :=
  fun _ _ _ => {| left_alone := Raises 3 e; cancelled := at_once |}.

(** An agent whose runs never end of themselves and end at once when they
    are cancelled. *)
Definition agent_stuck : agent_oracle :=
  fun _ _ _ => {| left_alone := Never; cancelled := at_once |}.

(** An agent that answers after seven time units. *)
Definition agent_done : agent_oracle :=
  fun _ _ _ =>
    {| left_alone :=
         Returns 7 {| history_truthy := true; history_str := "done" |};
       cancelled := at_once |}.

(** An agent whose runs never end of themselves; cancelled, a run takes
    five more time units and answers with a value all the same. *)
Definition agent_late : agent_oracle :=
  fun _ _ _ =>
    {| left_alone := Never;
       cancelled := fun _ =>
         Returns 5 {| history_truthy := true; history_str := "late" |} |}.

(** An agent whose runs never end, cancelled or not. *)
Definition agent_deaf : agent_oracle :=
  fun _ _ _ => {| left_alone := Never; cancelled := fun _ => Never |}.

(** A fresh session, as [initialize_session_state] leaves it. *)
Definition fresh_session : session_state :=
  {| chat_history := []; current_task := ""; task_running := false;
     llm_provider := "openai"; model_name := ""; last_error := None;
     task_count := 0 |}.

(** A process with the environment [environ], a writable directory and no
    settings file yet. *)
Definition fresh_world (environ : gmap string string) : world :=
  {| Streamlit.environ := environ; dotenv_file := None; write_error := None;
     session := fresh_session; shown_errors := [] |}.

(** The same process after the user has picked the model gpt-4o-mini. *)
Definition world_with_model (environ : gmap string string) : world :=
  with_session
    {| chat_history := []; current_task := ""; task_running := false;
       llm_provider := "openai"; model_name := "gpt-4o-mini";
       last_error := None; task_count := 0 |}
    (fresh_world environ).

End Examples.

(** ** [flexible_browser_use.py]: the command-line script *)
Module FlexibleScript.
Import Flexible.

(** [str.lower] on the code points below 256: A..Z and the accented capitals
    À..Þ (the multiplication sign excepted) move up by 32. *)
Definition lower_char (c : ascii) : ascii :=
  let n := N_of_ascii c in
  if ((65 <=? n) && (n <=? 90))
     || ((192 <=? n) && (n <=? 222) && negb (n =? 215))
  then ascii_of_N (n + 32) else c.

Fixpoint lower (s : string) : string :=
  match s with
  | EmptyString => EmptyString
  | String c s' => String (lower_char c) (lower s')
  end.

(** What the script reads off a client object. *)
Definition client_model (client : llm) : string :=
  match client with
  | ChatOpenAI a => model a
  | ChatAnthropic a => anthropic_model_name a
  | ChatGoogleGenerativeAI a => google_model a
  end.

Definition client_api_key (client : llm) : string :=
  match client with
  | ChatOpenAI a => api_key a
  | ChatAnthropic a => anthropic_api_key a
  | ChatGoogleGenerativeAI a => google_api_key a
  end.

Definition client_temperature (client : llm) : QArith_base.Q :=
  match client with
  | ChatOpenAI a => temperature a
  | ChatAnthropic a => anthropic_temperature a
  | ChatGoogleGenerativeAI a => google_temperature a
  end.

(** [create_llm(provider=None, model=None)]; the [print] calls only write to
    the terminal and are left out. *)
Definition create_llm (environ : gmap string string)
    (provider model : option string) : outcome llm :=
  let provider :=
    if negb (Py.truthy_opt provider)
    then lower (default "openai" (environ !! "LLM_PROVIDER"))
    else default "" provider in
  if String.eqb provider "openai" then create_openai_llm environ model
  else if String.eqb provider "anthropic" then create_anthropic_llm environ model
  else if String.eqb provider "google" then create_google_llm environ model
  else if String.eqb provider "openrouter" then
    create_openrouter_llm environ model
  else Raise (Exc ValueError ("Unsupported provider: " +:+ provider)).

(** [input(prompt)] on an exhausted terminal. *)
Definition end_of_input : exc := Exc OtherException "EOF when reading a line".

Section Console.

(** [int(text)]: [None] stands for the [ValueError] of a text that is not a
    number. *)
Variable int_of : string -> option Z.

(** The loop [while True] of [interactive_provider_selection]: one round for
    each line typed; the answer and the lines left.  [available[k]] outside
    the list would be an [IndexError]. *)
Fixpoint select_provider (available : list string) (stdin : list string)
    : outcome string * list string :=
  match stdin with
  | [] => (Raise end_of_input, [])
  | line :: rest =>
      let choice := Py.strip line in
      if negb (Py.truthy choice) then
        match available !! 0%nat with
        | Some provider => (Return provider, rest)
        | None => (Raise (Exc OtherException "list index out of range"), rest)
        end
      else
        match int_of choice with
        | None => select_provider available rest
        | Some n =>
            let choice_idx := (n - 1)%Z in
            if (0 <=? choice_idx)%Z
               && (choice_idx <? Z.of_nat (length available))%Z
            then
              match available !! Z.to_nat choice_idx with
              | Some provider => (Return provider, rest)
              | None =>
                  (Raise (Exc OtherException "list index out of range"), rest)
              end
            else select_provider available rest
        end
  end.

(** The second question: [input(...).strip()], [None] for an empty answer. *)
Definition select_model (stdin : list string)
    : outcome (option string) * list string :=
  match stdin with
  | [] => (Raise end_of_input, [])
  | line :: rest =>
      let model_choice := Py.strip line in
      (Return (if Py.truthy model_choice then Some model_choice else None),
       rest)
  end.

(** [interactive_provider_selection()]: the pair it returns and the lines
    left on the terminal. *)
Definition interactive_provider_selection (environ : gmap string string)
    (stdin : list string)
    : outcome (option string * option string) * list string :=
  let available_providers := get_available_providers environ in
  match available_providers with
  | [] => (Return (None, None), stdin)
  | _ :: _ =>
      match select_provider available_providers stdin with
      | (Return provider, stdin) =>
          let answer :=
            match suggestions provider with
            | _ :: _ => select_model stdin
            | [] => select_model stdin
            end in
          match answer with
          | (Return model, stdin) => (Return (Some provider, model), stdin)
          | (Raise e, stdin) => (Raise e, stdin)
          | (Blocks, stdin) => (Blocks, stdin)
          end
      | (Raise e, stdin) => (Raise e, stdin)
      | (Blocks, stdin) => (Blocks, stdin)
      end
  end.

Definition default_task : string :=
  "Go to https://httpbin.org/get and tell me what my IP address is".

(** The [try] of [main]: the client, the task typed (or the default one),
    and the one run of the agent, without a deadline. *)
Definition main_try (environ : gmap string string) (agent : agent_oracle)
    (provider model : option string) (stdin : list string) : M unit :=
  let* llm0 := lift (create_llm environ provider model) in
  let* task :=
    match stdin with
    | [] => raise end_of_input
    | line :: _ =>
        let task := Py.strip line in
        ret (if negb (Py.truthy task) then default_task else task)
    end in
  let* result := await (run_task_with_llm agent task llm0 None) in
  ret tt.

(** [main()] *)
Definition main (environ : gmap string string) (agent : agent_oracle)
    (stdin : list string) : outcome unit * trace :=
  let use_interactive :=
    String.eqb (lower (default "false" (environ !! "INTERACTIVE_MODE")))
               "true" in
  let selection :=
    if use_interactive then interactive_provider_selection environ stdin
    else (Return (environ !! "LLM_PROVIDER", None), stdin) in
  match selection with
  | (Return (provider, model), stdin) =>
      if use_interactive && negb (Py.truthy_opt provider) then
        (Return tt, no_trace)
      else
        try_except (main_try environ agent provider model stdin)
                   (fun e =>
                      if is_Exception (class_of e) then Some (ret tt)
                      else None)
                   no_trace
  | (Raise e, _) => (Raise e, no_trace)
  | (Blocks, _) => (Blocks, no_trace)
  end.

End Console.

End FlexibleScript.

(** ** [browser_use_ui_fixed.py]: the page as a whole *)
Module FixedPage.
Import Flexible Streamlit Fixed.

(** *** [initialize_session_state] on the session as a dict *)

(** The values the session dict holds. *)
Inductive value : Type :=
  | VList (l : list message)
  | VStr (s : string)
  | VBool (b : bool)
  | VNone
  | VInt (n : N).

(** The dict [defaults], in the order of its items. *)
Definition defaults (environ : gmap string string) : list (string * value) :=
  [ ("chat_history", VList []);
    ("current_task", VStr "");
    ("task_running", VBool false);
    ("llm_provider", VStr (default "openai" (environ !! "LLM_PROVIDER")));
    ("model_name", VStr "");
    ("last_error", VNone);
    ("task_count", VInt 0) ].

(** [if key not in st.session_state: st.session_state[key] = default_value] *)
Definition set_default (state : gmap string value) (item : string * value)
    : gmap string value :=
  match state !! item.1 with
  | Some _ => state
  | None => <[item.1 := item.2]> state
  end.

(** [initialize_session_state()]: the loop over [defaults.items()]. *)
Definition initialize_session_state (environ : gmap string string)
    (state : gmap string value) : gmap string value :=
  foldl set_default state (defaults environ).

(** The five [if] statements of [initialize_session_state] in
    [browser_use_ui.py]. *)
Definition original_initialize_session_state (environ : gmap string string)
    (state : gmap string value) : gmap string value :=
  let state := set_default state ("chat_history", VList []) in
  let state := set_default state ("current_task", VStr "") in
  let state := set_default state ("task_running", VBool false) in
  let state :=
    set_default state
      ("llm_provider", VStr (default "openai" (environ !! "LLM_PROVIDER"))) in
  let state := set_default state ("model_name", VStr "") in
  state.

(** *** [check_system_requirements] *)



(** *** One run of [main] *)

Definition set_llm_provider (p : string) (s : session_state) : session_state :=
  {| chat_history := chat_history s; current_task := current_task s;
     task_running := task_running s; llm_provider := p;
     model_name := model_name s; last_error := last_error s;
     task_count := task_count s |}.

Definition set_model_name (m : string) (s : session_state) : session_state :=
  {| chat_history := chat_history s; current_task := current_task s;
     task_running := task_running s; llm_provider := llm_provider s;
     model_name := m; last_error := last_error s;
     task_count := task_count s |}.

Definition set_chat_history (h : list message) (s : session_state)
    : session_state :=
  {| chat_history := h; current_task := current_task s;
     task_running := task_running s; llm_provider := llm_provider s;
     model_name := model_name s; last_error := last_error s;
     task_count := task_count s |}.

(** [l.index(x)]: the first position of [x]. *)
Fixpoint index_of (x : string) (l : list string) : option nat :=
  match l with
  | [] => None
  | y :: l' => if String.eqb y x then Some 0%nat else S <$> index_of x l'
  end.

(** What the widgets of one run report: the two select boxes (given their
    options and their preselected index; the model box is one widget for
    each provider), the four key fields, the task field, and which buttons
    were pressed. *)
Record widgets : Type := {
  provider_box : list string -> nat -> string;
  model_box : string -> list string -> nat -> string;
  openai_key_input : string;
  anthropic_key_input : string;
  google_key_input : string;
  openrouter_key_input : string;
  save_keys_pressed : bool;
  task_input_field : string;
  start_pressed : bool;
  clear_pressed : bool;
  example_pressed : option nat
}.

(** The providers offered in the first select box: the configured ones, or
    all four when none is configured. *)
Definition offered_providers (environ : gmap string string) : list string :=
  let available_providers := get_available_providers environ in
  match available_providers with
  | [] => ["openai"; "anthropic"; "google"; "openrouter"]
  | _ :: _ => available_providers
  end.

(** [available_providers.index(p) if p in available_providers else 0] *)
Definition current_index (available_providers : list string)
    (llm_provider : string) : nat :=
  if bool_decide (llm_provider ∈ available_providers)
  then default 0%nat (index_of llm_provider available_providers)
  else 0%nat.

(** The provider and model selection of the sidebar. *)
Definition sidebar_selection (ui : widgets) (w : world) : world :=
  let available_providers := offered_providers (environ w) in
  let current_index :=
    current_index available_providers (llm_provider (session w)) in
  let provider := provider_box ui available_providers current_index in
  let s := set_llm_provider provider (session w) in
  let model_options := get_model_options provider in
  let s :=
    match model_options with
    | [] => s
    | _ :: _ => set_model_name (model_box ui provider model_options 0%nat) s
    end in
  with_session s w.

(** [can_start_task] *)
Definition can_start_task (task_input provider : string) (w : world) : bool :=
  negb (task_running (session w))
  && Py.truthy task_input
  && Py.truthy (Py.strip task_input)
  && validate_api_key (environ w !! (Py.upper provider +:+ "_API_KEY")).

(** [st.button(..., disabled=not can_start_task)]: a disabled button is never
    reported as pressed. *)
Definition start_button (ui : widgets) (provider : string) (w : world)
    : bool :=
  start_pressed ui && can_start_task (task_input_field ui) provider w.

Definition examples : list string :=
  [ "Go to Google and search for 'latest AI news'";
    "Visit GitHub and find trending Python repositories";
    "Go to httpbin.org/get and tell me my IP address";
    "Search for 'browser automation' on DuckDuckGo";
    "Go to news.ycombinator.com and get the top 3 story titles" ].

Section Run.

Variable load_dotenv : string -> gmap string string -> gmap string string.
Variable agent : agent_oracle.

(** One run of [main] on an initialised session: [issues] is what
    [check_system_requirements] answered, [now] and [later] are the readings
    of the clock.  Calls that only draw are left out. *)
Definition main (issues : list string) (now later : string) (ui : widgets)
    (w : world) : script_end * world * trace :=
  match issues with
  | _ :: _ =>
      let w := st_error "❌ System Requirements Issues:" w in
      let w := foldl (fun w issue => st_error ("• " +:+ issue) w) w issues in
      let w := st_error "Please resolve these issues before continuing." w in
      (Stops, w, no_trace)
  | [] =>
      let w := sidebar_selection ui w in
      let provider := llm_provider (session w) in
      let saved :=
        if save_keys_pressed ui then
          save_api_keys load_dotenv
            (Some (openai_key_input ui)) (Some (anthropic_key_input ui))
            (Some (google_key_input ui)) (Some (openrouter_key_input ui)) w
        else (false, w) in
      if saved.1 then (Reruns, saved.2, no_trace)
      else
        let w := saved.2 in
        let start_button := start_button ui provider w in
        if clear_pressed ui then
          (Reruns,
           with_session
             (set_last_error None (set_chat_history [] (session w))) w,
           no_trace)
        else
          match
            handle_task_execution agent now later start_button
              (task_input_field ui) provider w
          with
          | (Continues, w, t) =>
              match example_pressed ui with
              | Some i =>
                  match examples !! i with
                  | Some example =>
                      (Reruns,
                       with_session (set_current_task example (session w)) w,
                       t)
                  | None => (Continues, w, t)
                  end
              | None => (Continues, w, t)
              end
          | ended => ended
          end
  end.

End Run.

End FixedPage.

(** ** [run_ui.py]: the launcher *)
Module Launcher.

(** How [subprocess.run(cmd, check=True)] ends: the command exits with
    status 0, it exits with another status ([CalledProcessError], with its
    text), the user interrupts it, or starting it fails in another way. *)
Inductive run_end : Type :=
  | Completed
  | CalledProcessError (text : string)
  | KeyboardInterrupt
  | OtherError (text : string).

(** How the script ends: [main] returns, or [sys.exit(status)]. *)
Inductive script_exit : Type :=
  | Returned
  | Exited (status : N).

(** What a run of the launcher leaves: the lines printed and the commands
    started. *)
Record launch : Type := {
  exit : script_exit;
  printed : list string;
  commands : list (list string)
}.

(** [check_environment()]: the answer and the lines printed; [present] holds
    the paths that exist. *)
Definition check_environment (present : gset string) : bool * list string :=
  if negb (bool_decide ("browser_use_env" ∈ present)) then
    (false, ["❌ Error: browser_use_env not found!";
             "Please run this from the Bowsruse directory."])
  else if negb (bool_decide ("browser_use_ui.py" ∈ present)) then
    (false, ["❌ Error: browser_use_ui.py not found!"])
  else if negb (bool_decide ("flexible_browser_use.py" ∈ present)) then
    (false, ["❌ Error: flexible_browser_use.py not found!"])
  else (true, []).

Definition cmd : list string :=
  [ "bash"; "-c";
    "source browser_use_env/bin/activate && streamlit run browser_use_ui.py --server.port 8501 --server.address localhost" ].

(** [text * n] *)
Fixpoint times (text : string) (n : nat) : string :=
  match n with
  | O => ""
  | S n' => text +:+ times text n'
  end.

(** [main()]; [run] is what the operating system does with a command. *)
Definition main (present : gset string) (run : list string -> run_end)
    : launch :=
  let out := ["🚀 Starting Browser Use UI..."] in
  let '(ok, lines) := check_environment present in
  let out := out ++ lines in
  if negb ok then {| exit := Exited 1; printed := out; commands := [] |}
  else
    let out :=
      if negb (bool_decide (".env" ∈ present)) then
        out ++ ["⚠️  Warning: .env file not found!";
                "You can configure API keys through the web interface."]
      else out in
    let out :=
      out ++ ["🌐 Opening web interface at http://localhost:8501";
              "📱 Use Ctrl+C to stop the server";
              times "-" 50] in
    let out :=
      match run cmd with
      | Completed => out
      | KeyboardInterrupt => out ++ ["
👋 Browser Use UI stopped."]
      | CalledProcessError text =>
          out ++ ["❌ Error starting UI: " +:+ text;
                  "Make sure Streamlit is installed: pip install streamlit"]
      | OtherError text => out ++ ["❌ Unexpected error: " +:+ text]
      end in
    {| exit := Returned; printed := out; commands := [cmd] |}.

End Launcher.

(** ** More vocabulary for the properties *)
Module Terms.
Import Flexible Streamlit.

(** The first character, if there is one, is not white space. *)
Definition starts_clean (s : string) : bool :=
  match s with
  | EmptyString => true
  | String c _ => negb (Py.isspace c)
  end.

(** The provider name [create_llm] goes by: the argument when it is given
    and non-empty, the lower-cased [LLM_PROVIDER] of the environment
    (openai when unset) otherwise. *)
Definition effective_provider (environ : gmap string string)
    (provider : option string) : string :=
  if Py.truthy_opt provider then default "" provider
  else FlexibleScript.lower (default "openai" (environ !! "LLM_PROVIDER")).

(** A select box answers with one of its options. *)
Definition select_boxes_behave (ui : FixedPage.widgets) : Prop :=
  (∀ options index,
     options ≠ [] → FixedPage.provider_box ui options index ∈ options)
  ∧ (∀ provider options index,
       options ≠ [] → FixedPage.model_box ui provider options index ∈ options).

(** A select box nobody has touched answers with its preselected option. *)
Definition untouched_box (options : list string) (index : nat) : string :=
  default "" (options !! index).

(** The run of the agent on [task] with the client [llm0], as the pages and
    the script start it. *)
Definition run_of (task : string) (llm0 : llm) : agent_call :=
  {| call_task := task; call_llm := llm0; call_browser_config := None |}.

End Terms.

(** ** More concrete inputs *)
Module MoreExamples.
Import Flexible Streamlit.

(** [int] on the texts of one digit; any other text is refused. *)
Definition digit_of (text : string) : option Z :=
  match text with
  | String c EmptyString =>
      let n := N_of_ascii c in
      if (48 <=? n) && (n <=? 57) then Some (Z.of_N (n - 48)) else None
  | _ => None
  end.

(** An environment with an OpenAI and an Anthropic credential. *)
Definition two_providers : gmap string string :=
  <["OPENAI_API_KEY" := "sk-validkey1234"]>
  (<["ANTHROPIC_API_KEY" := "sk-ant-validkey1234"]> ∅).

(** A process whose directory cannot be written to. *)
Definition read_only_world : world :=
  {| environ := ∅; dotenv_file := Some "OPENAI_API_KEY=old"%string;
     write_error := Some "[Errno 13] Permission denied: '.env'"%string;
     session := Examples.fresh_session; shown_errors := [] |}.

(** A select box that always answers with its first option. *)
Definition first_box (options : list string) (index : nat) : string :=
  default "" (head options).

(** The widgets of a run in which the user has typed the task go and
    pressed the start button, and touched nothing else. *)
Definition start_ui : FixedPage.widgets :=
  {| FixedPage.provider_box := Terms.untouched_box;
     FixedPage.model_box := fun _ => Terms.untouched_box;
     FixedPage.openai_key_input := "";
     FixedPage.anthropic_key_input := "";
     FixedPage.google_key_input := "";
     FixedPage.openrouter_key_input := "";
     FixedPage.save_keys_pressed := false;
     FixedPage.task_input_field := "go";
     FixedPage.start_pressed := true;
     FixedPage.clear_pressed := false;
     FixedPage.example_pressed := None |}.

(** The same run with select boxes that answer with their first option. *)
Definition first_ui : FixedPage.widgets :=
  {| FixedPage.provider_box := first_box;
     FixedPage.model_box := fun _ => first_box;
     FixedPage.openai_key_input := "";
     FixedPage.anthropic_key_input := "";
     FixedPage.google_key_input := "";
     FixedPage.openrouter_key_input := "";
     FixedPage.save_keys_pressed := false;
     FixedPage.task_input_field := "go";
     FixedPage.start_pressed := true;
     FixedPage.clear_pressed := false;
     FixedPage.example_pressed := None |}.

End MoreExamples.

(** * Properties *)

(** Case analysis on every condition of the goal. *)
Ltac case_conditions :=
  repeat match goal with
         | |- context [if ?b then _ else _] =>
             lazymatch b with
             | true => fail
             | false => fail
             | _ => destruct b; cbn beta iota
             end
         end.

(** A lookup in one of the model tables outside its four keys. *)
Ltac outside_table :=
  rewrite !list_to_map_cons, !lookup_insert_ne by done;
  rewrite list_to_map_nil, lookup_empty; reflexivity.

(** Order-preserving inclusion of one explicit list in another. *)
Ltac find_sublist :=
  repeat first [apply sublist_nil | apply sublist_skip | apply sublist_cons].

(** ** Strings *)
Section Strings.

Lemma truthy_true_iff (s : string) : Py.truthy s = true ↔ s ≠ "".
Proof.
  unfold Py.truthy. rewrite negb_true_iff.
  destruct (String.eqb_spec s ""); split; congruence.
Qed.

Lemma truthy_false_iff (s : string) : Py.truthy s = false ↔ s = "".
Proof.
  unfold Py.truthy. rewrite negb_false_iff. apply String.eqb_eq.
Qed.

Lemma lstrip_whitespace_only (s : string) :
  Py.whitespace_only (Py.lstrip s) = Py.whitespace_only s.
Proof.
  induction s as [|c s IH]; [reflexivity|].
  simpl. destruct (Py.isspace c) eqn:Hc; simpl.
  - exact IH.
  - by rewrite Hc.
Qed.

Lemma rstrip_empty_iff (s : string) :
  Py.rstrip s = "" ↔ Py.whitespace_only s = true.
Proof.
  induction s as [|c s IH]; simpl; [done|].
  destruct (Py.rstrip s) eqn:Hr.
  - destruct (Py.isspace c); simpl.
    + split; [intros _; by apply IH | done].
    + split; discriminate.
  - destruct (Py.isspace c); simpl.
    + split; [discriminate|]. intros Hw. apply IH in Hw. discriminate.
    + split; discriminate.
Qed.

Lemma strip_empty_iff (s : string) :
  Py.strip s = "" ↔ Py.whitespace_only s = true.
Proof.
  unfold Py.strip. rewrite rstrip_empty_iff. by rewrite lstrip_whitespace_only.
Qed.

Lemma strip_truthy (s : string) :
  Py.truthy (Py.strip s) = negb (Py.whitespace_only s).
Proof.
  destruct (Py.whitespace_only s) eqn:Hw; simpl.
  - apply truthy_false_iff. by apply strip_empty_iff.
  - apply truthy_true_iff. intros He. apply strip_empty_iff in He. congruence.
Qed.

(** A blank task fails the first test of the dispatcher, written as in the
    source: [not task or not task.strip()]. *)
Lemma blank_task_test (task : string) :
  negb (Py.truthy task) || negb (Py.truthy (Py.strip task))
  = Py.whitespace_only task.
Proof.
  rewrite strip_truthy, negb_involutive.
  destruct task as [|c task]; [reflexivity|]. reflexivity.
Qed.

Lemma lstrip_length (s : string) :
  (String.length (Py.lstrip s) ≤ String.length s)%nat.
Proof.
  induction s as [|c s IH]; simpl; [lia|].
  destruct (Py.isspace c); simpl; lia.
Qed.

Lemma rstrip_length (s : string) :
  (String.length (Py.rstrip s) ≤ String.length s)%nat.
Proof.
  induction s as [|c s IH]; simpl; [lia|].
  destruct (Py.rstrip s); [destruct (Py.isspace c)|]; simpl in *; lia.
Qed.

Lemma strip_length (s : string) :
  (String.length (Py.strip s) ≤ String.length s)%nat.
Proof.
  unfold Py.strip. etrans; [apply rstrip_length | apply lstrip_length].
Qed.

End Strings.

(** ** Credentials *)
Section Credentials.
Import Fixed.

Lemma validate_api_key_None : validate_api_key None = false.
Proof. reflexivity. Qed.

(** The four tests of [validate_api_key] in one formula. *)
Lemma validate_api_key_tests (key : string) :
  validate_api_key (Some key)
  = negb (String.eqb key "") && negb (String.eqb (Py.strip key) "")
    && negb (bool_decide (key ∈ placeholders))
    && negb (String.length (Py.strip key) <? 10)%nat.
Proof.
  unfold validate_api_key. change (default "" (Some key)) with key.
  cbn [Py.truthy_opt]. unfold Py.truthy.
  destruct (String.eqb key ""), (String.eqb (Py.strip key) ""),
    (bool_decide (key ∈ placeholders)),
    (String.length (Py.strip key) <? 10)%nat; reflexivity.
Qed.

(** C4, as amended.  [validate_api_key] answers [False] exactly for the
    empty string, for a string whose stripped form has fewer than ten
    characters, and for the three placeholders; it answers [True] for every
    other string.  The length is taken after [strip()], the comparison with
    the placeholders before. *)
Theorem validate_api_key_false_iff (key : string) :
  validate_api_key (Some key) = false ↔
    key = "" ∨ (String.length (Py.strip key) < Spec.minimum_length)%nat
    ∨ key ∈ placeholders.
Proof.
  rewrite validate_api_key_tests. unfold Spec.minimum_length.
  rewrite !andb_false_iff, !negb_false_iff, String.eqb_eq, String.eqb_eq,
    bool_decide_eq_true, Nat.ltb_lt.
  split.
  - intros [[[?|He]|?]|?]; [by left| |by right; right|by right; left].
    right; left. rewrite He. simpl. lia.
  - intros [?|[?|?]]; [by left; left; left|by right|by left; right].
Qed.

(** C4, as the specification words it, fails: a string of ten characters,
    eight letters and two blanks, is neither empty nor shorter than the
    threshold nor a placeholder, and yet it is rejected. *)
Lemma validate_api_key_counts_stripped :
  validate_api_key (Some "abcdefgh  ") = false
  ∧ Spec.configured_as_specified "abcdefgh  " = true
  ∧ String.length "abcdefgh  " = 10%nat.
Proof. repeat split; vm_compute; reflexivity. Qed.

Lemma validate_api_key_true_iff (key : string) :
  validate_api_key (Some key) = true ↔
    key ≠ "" ∧ (Spec.minimum_length ≤ String.length (Py.strip key))%nat
    ∧ key ∉ placeholders.
Proof.
  rewrite validate_api_key_tests. unfold Spec.minimum_length.
  rewrite !andb_true_iff, !negb_true_iff, String.eqb_neq, String.eqb_neq,
    bool_decide_eq_false, Nat.ltb_ge.
  split; [intros [[[? _] ?] ?]; done|].
  intros (?&Hl&?). repeat split; try done.
  intros He. rewrite He in Hl. simpl in Hl. lia.
Qed.

(** A credential that passes is at least ten characters long as written. *)
Lemma validate_api_key_length (key : string) :
  validate_api_key (Some key) = true →
  (Spec.minimum_length ≤ String.length key)%nat.
Proof.
  rewrite validate_api_key_tests, !andb_true_iff, !negb_true_iff, Nat.ltb_ge.
  intros [_ Hl]. unfold Spec.minimum_length.
  etrans; [exact Hl | apply strip_length].
Qed.

End Credentials.

(** ** Provider registry *)
Section Registry.
Import Flexible.

Lemma get_available_providers_sublist (environ : gmap string string) :
  get_available_providers environ `sublist_of` Spec.enumeration.
Proof.
  unfold get_available_providers, Spec.enumeration.
  case_conditions; cbn [app]; repeat constructor.
Qed.

Lemma listed_openai (environ : gmap string string) :
  Spec.listed environ "openai" = Py.truthy_opt (environ !! "OPENAI_API_KEY").
Proof.
  unfold Spec.listed.
  change (Spec.credential_variable "openai") with "OPENAI_API_KEY".
  change (Spec.own_placeholder "openai") with (@None string).
  destruct (environ !! "OPENAI_API_KEY"); [|reflexivity].
  rewrite bool_decide_eq_false_2 by discriminate. apply andb_true_r.
Qed.

Lemma listed_anthropic (environ : gmap string string) :
  Spec.listed environ "anthropic"
  = Py.truthy_opt (environ !! "ANTHROPIC_API_KEY")
    && negb (bool_decide (environ !! "ANTHROPIC_API_KEY"
                          = Some "your_anthropic_api_key_here")).
Proof. reflexivity. Qed.

Lemma listed_google (environ : gmap string string) :
  Spec.listed environ "google"
  = Py.truthy_opt (environ !! "GOOGLE_API_KEY")
    && negb (bool_decide (environ !! "GOOGLE_API_KEY"
                          = Some "your_google_api_key_here")).
Proof. reflexivity. Qed.

Lemma listed_openrouter (environ : gmap string string) :
  Spec.listed environ "openrouter"
  = Py.truthy_opt (environ !! "OPENROUTER_API_KEY")
    && negb (bool_decide (environ !! "OPENROUTER_API_KEY"
                          = Some "your_openrouter_api_key_here")).
Proof. reflexivity. Qed.

(** C5, as amended.  [get_available_providers] lists exactly the providers
    whose credential is set, non-empty and different from that provider's
    own placeholder (openai has none), in the order of the enumeration, so
    its answer is an order-preserving subsequence of the enumeration.  The
    test is not [validate_api_key]: no length is required. *)
Theorem get_available_providers_spec (environ : gmap string string) :
  get_available_providers environ
    = List.filter (Spec.listed environ) Spec.enumeration
  ∧ get_available_providers environ `sublist_of` Spec.enumeration.
Proof.
  split; [|apply get_available_providers_sublist].
  unfold get_available_providers, Spec.enumeration.
  cbn [List.filter].
  rewrite listed_openai, listed_anthropic, listed_google, listed_openrouter.
  case_conditions; reflexivity.
Qed.

(** C5, as the specification words it, fails: a three-letter openai
    credential fails [validate_api_key] and the specification's reading of
    configured, and the provider is listed all the same. *)
Lemma get_available_providers_short_key :
  get_available_providers {[ "OPENAI_API_KEY" := "abc" ]} = ["openai"]
  ∧ Fixed.validate_api_key
      (({[ "OPENAI_API_KEY" := "abc" ]} : gmap string string)
         !! "OPENAI_API_KEY") = false
  ∧ Spec.configured_as_specified "abc" = false.
Proof. repeat split; vm_compute; reflexivity. Qed.

(** *** The three tables of model suggestions *)

Lemma suggestions_outside (provider : string) :
  provider ∉ Spec.enumeration → suggestions provider = [].
Proof.
  unfold Spec.enumeration. rewrite !not_elem_of_cons. intros (?&?&?&?&_).
  unfold suggestions, model_suggestions. outside_table.
Qed.

Lemma original_options_outside (provider : string) :
  provider ∉ Spec.enumeration → Original.get_model_options provider = [].
Proof.
  unfold Spec.enumeration. rewrite !not_elem_of_cons. intros (?&?&?&?&_).
  unfold Original.get_model_options, Original.models. outside_table.
Qed.

Lemma fixed_options_outside (provider : string) :
  provider ∉ Spec.enumeration → Fixed.get_model_options provider = [].
Proof.
  unfold Spec.enumeration. rewrite !not_elem_of_cons. intros (?&?&?&?&_).
  unfold Fixed.get_model_options, Fixed.models. outside_table.
Qed.

(** C10, as amended.  The three tables are not equal; they are nested.  For
    every provider name the list of [flexible_browser_use.py] is an initial
    segment of the list of [browser_use_ui.py], which is an order-preserving
    subsequence of the list of [browser_use_ui_fixed.py]; the three lists
    start with the same model; and for a name outside the enumeration each
    of the three is empty. *)
Theorem model_tables_nested (provider : string) :
  suggestions provider `prefix_of` Original.get_model_options provider
  ∧ Original.get_model_options provider
      `sublist_of` Fixed.get_model_options provider
  ∧ head (suggestions provider) = head (Fixed.get_model_options provider)
  ∧ (provider ∉ Spec.enumeration →
     suggestions provider = []
     ∧ Original.get_model_options provider = []
     ∧ Fixed.get_model_options provider = []).
Proof.
  destruct (decide (provider ∈ Spec.enumeration)) as [Hin|Hout].
  - unfold Spec.enumeration in Hin.
    rewrite !elem_of_cons, elem_of_nil in Hin.
    destruct Hin as [->|[->|[->|[->|[]]]]];
      (split; [vm_compute; by eexists|]);
      (split; [vm_compute; find_sublist|]);
      (split; [vm_compute; reflexivity|]);
      intros Hout; exfalso; apply Hout; unfold Spec.enumeration;
      rewrite !elem_of_cons; tauto.
  - rewrite suggestions_outside, original_options_outside,
      fixed_options_outside by done.
    repeat split; done.
Qed.

(** C10, as the specification words it, fails: for openai the fixed page
    offers five models, gpt-4 among them, the original page and the script
    four. *)
Lemma model_tables_differ :
  Fixed.get_model_options "openai"
    = ["gpt-4o"; "gpt-4o-mini"; "gpt-4-turbo"; "gpt-4"; "gpt-3.5-turbo"]
  ∧ Original.get_model_options "openai"
    = ["gpt-4o"; "gpt-4o-mini"; "gpt-4-turbo"; "gpt-3.5-turbo"]
  ∧ suggestions "openai"
    = ["gpt-4o"; "gpt-4o-mini"; "gpt-4-turbo"; "gpt-3.5-turbo"]
  ∧ Fixed.get_model_options "openai" ≠ Original.get_model_options "openai".
Proof. repeat split; vm_compute; (reflexivity || discriminate). Qed.

End Registry.

(** ** Client factory: the OpenRouter headers *)
Section Factory.
Import Flexible Examples.

Lemma openrouter_extra_headers_referer (environ : gmap string string) :
  openrouter_extra_headers environ !! "HTTP-Referer"
  = Spec.present (environ !! "OPENROUTER_SITE_URL").
Proof.
  unfold openrouter_extra_headers, Spec.present. cbn zeta.
  destruct (environ !! "OPENROUTER_SITE_URL") as [url|] eqn:Hu;
    destruct (environ !! "OPENROUTER_SITE_NAME") as [name|] eqn:Hn;
    cbn [Py.truthy_opt]; case_conditions;
    rewrite ?lookup_insert_ne by done;
    rewrite ?lookup_insert_eq, ?lookup_empty; reflexivity.
Qed.

Lemma openrouter_extra_headers_title (environ : gmap string string) :
  openrouter_extra_headers environ !! "X-Title"
  = Spec.present (environ !! "OPENROUTER_SITE_NAME").
Proof.
  unfold openrouter_extra_headers, Spec.present. cbn zeta.
  destruct (environ !! "OPENROUTER_SITE_URL") as [url|] eqn:Hu;
    destruct (environ !! "OPENROUTER_SITE_NAME") as [name|] eqn:Hn;
    cbn [Py.truthy_opt]; case_conditions;
    rewrite ?lookup_insert_eq; rewrite ?lookup_insert_ne by done;
    rewrite ?lookup_empty; reflexivity.
Qed.

Lemma openrouter_extra_headers_other (environ : gmap string string)
    (name : string) :
  name ≠ "HTTP-Referer" → name ≠ "X-Title" →
  openrouter_extra_headers environ !! name = None.
Proof.
  intros. unfold openrouter_extra_headers. cbn zeta.
  case_conditions; rewrite ?lookup_insert_ne by done; apply lookup_empty.
Qed.

(** C8, as amended.  A client that [create_openrouter_llm] returns carries
    a header dict in which each of the two headers is decided by its own
    configuration value alone: HTTP-Referer is there exactly when the site
    URL is set and non-empty, X-Title exactly when the site name is, and
    there is no other header. *)
Theorem openrouter_headers (environ : gmap string string)
    (model_name : option string) (client : llm) :
  create_openrouter_llm environ model_name = Return client →
  ∃ a headers,
    client = ChatOpenAI a ∧ default_headers a = Some headers
    ∧ headers !! "HTTP-Referer"
      = Spec.present (environ !! "OPENROUTER_SITE_URL")
    ∧ headers !! "X-Title" = Spec.present (environ !! "OPENROUTER_SITE_NAME")
    ∧ ∀ name, name ≠ "HTTP-Referer" → name ≠ "X-Title" →
              headers !! name = None.
Proof.
  unfold create_openrouter_llm. cbn zeta.
  case_conditions; [discriminate|].
  intros [= <-]. eexists _, _. split; [reflexivity|].
  split; [reflexivity|]. cbn [default_headers].
  split; [apply openrouter_extra_headers_referer|].
  split; [apply openrouter_extra_headers_title|].
  apply openrouter_extra_headers_other.
Qed.

(** C8 on [site_url_only]: the one header is HTTP-Referer. *)
Lemma openrouter_headers_witness :
  ∃ a headers,
    ChatOpenAI {|
      base_url := Some "https://openrouter.ai/api/v1";
      api_key := "sk-or-validkey1234";
      model := "openai/gpt-4o";
      temperature := zero_temperature;
      default_headers := Some {[ "HTTP-Referer" := "https://example.org" ]}
    |} = ChatOpenAI a ∧ default_headers a = Some headers
    ∧ headers !! "HTTP-Referer"
      = Spec.present (site_url_only !! "OPENROUTER_SITE_URL")
    ∧ headers !! "X-Title"
      = Spec.present (site_url_only !! "OPENROUTER_SITE_NAME")
    ∧ ∀ name, name ≠ "HTTP-Referer" → name ≠ "X-Title" →
              headers !! name = None.
Proof.
  apply (openrouter_headers site_url_only None). vm_compute. reflexivity.
Defined.

(** C8, as the specification words it, fails: with the site URL set and no
    site name, the client is built with the HTTP-Referer header. *)
Lemma openrouter_header_without_site_name :
  create_openrouter_llm site_url_only None
  = Return (ChatOpenAI {|
      base_url := Some "https://openrouter.ai/api/v1";
      api_key := "sk-or-validkey1234";
      model := "openai/gpt-4o";
      temperature := zero_temperature;
      default_headers := Some {[ "HTTP-Referer" := "https://example.org" ]}
    |})
  ∧ site_url_only !! "OPENROUTER_SITE_NAME" = None
  ∧ ({[ "HTTP-Referer" := "https://example.org" ]} : gmap string string)
      !! "HTTP-Referer" = Some "https://example.org".
Proof. repeat split; vm_compute; reflexivity. Qed.

End Factory.

(** ** Strings: [strip] applied twice *)
Section MoreStrings.
Import Terms.



Lemma rstrip_idempotent (s : string) : Py.rstrip (Py.rstrip s) = Py.rstrip s.
Proof.
  induction s as [|c s IH]; [reflexivity|].
  cbn [Py.rstrip]. destruct (Py.rstrip s) as [|d r] eqn:Hr.
  - destruct (Py.isspace c) eqn:Hc; [reflexivity|].
    cbn [Py.rstrip]. by rewrite Hc.
  - change (Py.rstrip (String c (String d r)))
      with (match Py.rstrip (String d r) with
            | EmptyString =>
                if Py.isspace c then EmptyString else String c EmptyString
            | r0 => String c r0
            end).
    rewrite IH. reflexivity.
Qed.

Lemma lstrip_starts_clean (s : string) : starts_clean (Py.lstrip s) = true.
Proof.
  induction s as [|c s IH]; [reflexivity|].
  cbn [Py.lstrip]. destruct (Py.isspace c) eqn:Hc; [exact IH|].
  cbn. by rewrite Hc.
Qed.

Lemma lstrip_clean (s : string) : starts_clean s = true → Py.lstrip s = s.
Proof.
  destruct s as [|c s]; [reflexivity|].
  cbn. intros Hc%negb_true_iff. by rewrite Hc.
Qed.

Lemma rstrip_starts_clean (s : string) :
  starts_clean s = true → starts_clean (Py.rstrip s) = true.
Proof.
  destruct s as [|c s]; [reflexivity|]. cbn [starts_clean Py.rstrip].
  intros Hc. destruct (Py.rstrip s); [|exact Hc].
  apply negb_true_iff in Hc. rewrite Hc. cbn. by rewrite Hc.
Qed.

Lemma strip_idempotent (s : string) : Py.strip (Py.strip s) = Py.strip s.
Proof.
  unfold Py.strip.
  rewrite (lstrip_clean (Py.rstrip (Py.lstrip s))).
  - apply rstrip_idempotent.
  - apply rstrip_starts_clean, lstrip_starts_clean.
Qed.

End MoreStrings.

(** ** Task dispatcher *)
Section Dispatcher.
Import Flexible Streamlit Fixed Examples.

Lemma create_llm_for_not_blocks (environ : gmap string string)
    (provider : string) (model : option string) :
  create_llm_for environ provider model ≠ Blocks.
Proof.
  unfold create_llm_for, create_openai_llm, create_anthropic_llm,
    create_google_llm, create_openrouter_llm.
  cbn zeta. case_conditions; discriminate.
Qed.

Lemma create_llm_for_empty (environ : gmap string string)
    (model : option string) (llm0 : llm) :
  create_llm_for environ "" model ≠ Return llm0.
Proof. discriminate. Qed.

(** The factories and the chain over the provider raise [ValueError] and
    nothing else. *)
Lemma create_llm_for_raises (environ : gmap string string)
    (provider : string) (model : option string) (e : exc) :
  create_llm_for environ provider model = Raise e → class_of e = ValueError.
Proof.
  unfold create_llm_for, create_openai_llm, create_anthropic_llm,
    create_google_llm, create_openrouter_llm.
  cbn zeta. case_conditions; try discriminate; by intros [= <-].
Qed.

(** The three clauses answer every instance of [Exception] and let the
    other exceptions through. *)
Lemma handlers_report (e : exc) (t : trace) :
  match run_browser_task_handlers e with
  | Some h => h t
  | None => (Raise e, t)
  end = if is_Exception (class_of e)
        then (Return (None, Some (Spec.reported e)), t)
        else (Raise e, t).
Proof.
  unfold run_browser_task_handlers, Spec.reported.
  destruct (class_of e); reflexivity.
Qed.

(** Once the task is not blank and the client is built, the result is that
    of the one bounded wait for the agent. *)
Lemma run_browser_task_dispatched (environ : gmap string string)
    (agent : agent_oracle) (task provider : string) (model : option string)
    (llm0 : llm) (t : trace) :
  Py.whitespace_only task = false →
  create_llm_for environ provider model = Return llm0 →
  run_browser_task environ agent task provider model t =
    match wait_for (run_task_with_llm agent (Py.strip task) llm0 None) 300 t
    with
    | (Return h, t') => (Return (Some h, None), t')
    | (Raise e, t') =>
        if is_Exception (class_of e)
        then (Return (None, Some (Spec.reported e)), t')
        else (Raise e, t')
    | (Blocks, t') => (Blocks, t')
    end.
Proof.
  intros Hws Hllm.
  unfold run_browser_task, try_except, run_browser_task_body.
  rewrite blank_task_test, Hws.
  destruct provider as [|c p]; [by apply create_llm_for_empty in Hllm|].
  cbn [Py.truthy String.eqb negb].
  unfold bind, lift. rewrite Hllm.
  destruct (wait_for _ _ _) as [[h|e|] t']; [reflexivity| |reflexivity].
  apply handlers_report.
Qed.

Lemma run_browser_task_no_provider (environ : gmap string string)
    (agent : agent_oracle) (task : string) (model : option string)
    (t : trace) :
  Py.whitespace_only task = false →
  run_browser_task environ agent task "" model t
  = (Return (None, Some "Configuration error: Provider must be specified"), t).
Proof.
  intros Hws.
  unfold run_browser_task, try_except, run_browser_task_body.
  rewrite blank_task_test, Hws. reflexivity.
Qed.

Lemma run_browser_task_no_client (environ : gmap string string)
    (agent : agent_oracle) (task provider : string) (model : option string)
    (e : exc) (t : trace) :
  Py.whitespace_only task = false → provider ≠ "" →
  create_llm_for environ provider model = Raise e →
  run_browser_task environ agent task provider model t
  = (Return (None, Some (Spec.reported e)), t).
Proof.
  intros Hws Hp Hllm.
  unfold run_browser_task, try_except, run_browser_task_body.
  rewrite blank_task_test, Hws.
  destruct provider as [|c p]; [done|].
  cbn [Py.truthy String.eqb negb].
  unfold bind, lift. rewrite Hllm, handlers_report.
  by rewrite (create_llm_for_raises _ _ _ _ Hllm).
Qed.

Lemma run_browser_task_refuses_blank (environ : gmap string string)
    (agent : agent_oracle) (task provider : string) (model : option string)
    (t : trace) :
  Py.whitespace_only task = true →
  run_browser_task environ agent task provider model t
  = (Return (None, Some "Configuration error: Task cannot be empty"), t).
Proof.
  intros Hws.
  unfold run_browser_task, try_except, run_browser_task_body.
  rewrite blank_task_test, Hws. reflexivity.
Qed.

(** C3, as amended.  A task that is empty or consists of white space only
    never reaches the agent.  In [browser_use_ui_fixed.py] it is refused by
    the first test of [run_browser_task]: the body raises the [ValueError]
    for an empty task, the function returns it as an error, and the trace is
    left as it was: no client is built, no agent is run, no time is spent.
    In [browser_use_ui.py] the dispatcher has no such test; there it is the
    guard of the task block of the page that skips the dispatch. *)
Theorem run_browser_task_blank (environ : gmap string string)
    (agent : agent_oracle) (task provider : string) (model : option string)
    (t : trace) (now later : string) (start_button : bool) (w : world) :
  Py.whitespace_only task = true →
  run_browser_task_body environ agent task provider model t
    = (Raise (Exc ValueError "Task cannot be empty"), t)
  ∧ run_browser_task environ agent task provider model t
    = (Return (None, Some "Configuration error: Task cannot be empty"), t)
  ∧ Original.handle_task_execution agent now later start_button task
      provider w
    = (Continues, w, no_trace).
Proof.
  intros Hws. split; [|split].
  - unfold run_browser_task_body. by rewrite blank_task_test, Hws.
  - by apply run_browser_task_refuses_blank.
  - unfold Original.handle_task_execution.
    rewrite strip_truthy, Hws, andb_false_r. reflexivity.
Qed.

(** C3 on a task of two blanks. *)
Lemma run_browser_task_blank_witness :
  run_browser_task_body openai_only agent_done "  " "openai" None no_trace
    = (Raise (Exc ValueError "Task cannot be empty"), no_trace)
  ∧ run_browser_task openai_only agent_done "  " "openai" None no_trace
    = (Return (None, Some "Configuration error: Task cannot be empty"),
       no_trace)
  ∧ Original.handle_task_execution agent_done "10:00" "10:05" true "  "
      "openai" (fresh_world openai_only)
    = (Continues, fresh_world openai_only, no_trace).
Proof.
  apply (run_browser_task_blank openai_only agent_done "  " "openai" None
           no_trace "10:00" "10:05" true (fresh_world openai_only)).
  reflexivity.
Defined.

Lemma wait_for_invoked {A} (c : coroutine A) (timeout : N) (t : trace) :
  invoked (wait_for c timeout t).2 = invoked t ++ invokes c.
Proof.
  unfold wait_for.
  destruct (left_alone (pending_of c)) as [d a|d e|];
    try destruct (d <? timeout);
    try reflexivity;
    destruct (cancelled (pending_of c) timeout) as [d' a'|d' e'|];
    try reflexivity; by destruct (class_of e').
Qed.

(** When the bounded wait comes back with a value or an instance of
    [Exception]. *)
Lemma wait_for_answered {A} (c : coroutine A) (timeout : N) (t : trace) :
  Spec.answered (wait_for c timeout t).1
  ↔ Spec.comes_back (pending_of c) timeout.
Proof.
  assert (Hexp :
    Spec.answered
      (match cancelled (pending_of c) timeout with
       | Returns d a => (Return a, started c t (timeout + d))
       | Raises d e =>
           match class_of e with
           | CancelledError =>
               (Raise (Exc TimeoutError ""), started c t (timeout + d))
           | _ => (Raise e, started c t (timeout + d))
           end
       | Never => (Blocks, started c t timeout)
       end).1
    ↔ Spec.winds_up (cancelled (pending_of c) timeout)).
  { destruct (cancelled (pending_of c) timeout) as [d a|d [cls text]|];
      [done| |done].
    destruct cls; cbn; split; congruence. }
  unfold wait_for, Spec.comes_back.
  destruct (left_alone (pending_of c)) as [d a|d e|]; [| |exact Hexp].
  - destruct (N.ltb_spec d timeout) as [Hd|Hd].
    + cbn. split; [by left|done].
    + rewrite Hexp. split; [by right|]. intros [?|?]; [lia|done].
  - destruct (N.ltb_spec d timeout) as [Hd|Hd].
    + cbn. split; [by left|]. intros [[_ ?]|[? _]]; [done|lia].
    + rewrite Hexp. split; [by right|]. intros [[? _]|[_ ?]]; [lia|done].
Qed.

(** [run_browser_task] starts the agent at most once, and an exception it
    lets out is outside [Exception]. *)
Lemma run_browser_task_contained (environ : gmap string string)
    (agent : agent_oracle) (task provider : string) (model : option string)
    (t : trace) :
  ∃ r t',
    run_browser_task environ agent task provider model t = (r, t')
    ∧ (∃ calls, invoked t' = invoked t ++ calls ∧ (length calls ≤ 1)%nat)
    ∧ match r with
      | Raise e => is_Exception (class_of e) = false
      | _ => True
      end.
Proof.
  assert (Hidle :
    ∃ calls, invoked t = invoked t ++ calls ∧ (length calls ≤ 1)%nat).
  { exists []. rewrite app_nil_r. split; [done|]. simpl. lia. }
  destruct (Py.whitespace_only task) eqn:Hws.
  { eexists _, _. split; [by apply run_browser_task_refuses_blank|done]. }
  destruct (decide (provider = "")) as [->|Hp].
  { eexists _, _. split; [by apply run_browser_task_no_provider|done]. }
  destruct (create_llm_for environ provider model) as [llm0|e|] eqn:Hllm.
  - rewrite (run_browser_task_dispatched _ _ _ _ _ llm0) by done.
    pose proof (wait_for_invoked
                  (run_task_with_llm agent (Py.strip task) llm0 None) 300 t)
      as Hi.
    destruct (wait_for _ _ _) as [[h|e|] t']; cbn [snd] in Hi.
    + eexists _, _. split; [reflexivity|]. split; [|done].
      eexists. split; [exact Hi|]. simpl. lia.
    + destruct (is_Exception (class_of e)) eqn:He;
        eexists _, _; (split; [reflexivity|]); (split; [|done]);
        eexists; (split; [exact Hi|]); simpl; lia.
    + eexists _, _. split; [reflexivity|]. split; [|done].
      eexists. split; [exact Hi|]. simpl. lia.
  - eexists _, _. split; [by apply run_browser_task_no_client|done].
  - by apply create_llm_for_not_blocks in Hllm.
Qed.

(** When [run_browser_task] returns. *)
Lemma run_browser_task_returns_iff (environ : gmap string string)
    (agent : agent_oracle) (task provider : string) (model : option string)
    (t : trace) :
  (∃ pair t',
     run_browser_task environ agent task provider model t = (Return pair, t'))
  ↔ (Py.whitespace_only task = false →
     ∀ llm0, create_llm_for environ provider model = Return llm0 →
             Spec.comes_back (agent (Py.strip task) llm0 None) 300).
Proof.
  destruct (Py.whitespace_only task) eqn:Hws.
  { split; [done|]. intros _. eexists _, _.
    by apply run_browser_task_refuses_blank. }
  destruct (decide (provider = "")) as [->|Hp].
  { split; [by intros _ _ llm0 ?%create_llm_for_empty|].
    intros _. eexists _, _. by apply run_browser_task_no_provider. }
  destruct (create_llm_for environ provider model) as [llm0|e|] eqn:Hllm.
  - rewrite (run_browser_task_dispatched _ _ _ _ _ llm0) by done.
    pose proof (wait_for_answered
                  (run_task_with_llm agent (Py.strip task) llm0 None) 300 t)
      as Ha.
    cbn [pending_of run_task_with_llm] in Ha.
    destruct (wait_for _ _ _) as [[h|e|] t']; cbn [fst Spec.answered] in Ha.
    + split; [|by eexists _, _].
      intros _ _ llm1 [= <-]. by apply Ha.
    + destruct (is_Exception (class_of e)) eqn:He.
      * split; [|by eexists _, _]. intros _ _ llm1 [= <-]. by apply Ha.
      * split; [by intros (? & ? & ?)|].
        intros H. specialize (H eq_refl llm0 eq_refl). apply Ha in H. done.
    + split; [by intros (? & ? & ?)|].
      intros H. specialize (H eq_refl llm0 eq_refl). by apply Ha in H.
  - split; [done|]. intros _. eexists _, _.
    by apply run_browser_task_no_client.
  - by apply create_llm_for_not_blocks in Hllm.
Qed.

(** What [run_browser_task] can do, for every input and every behaviour of
    the agent.  It returns a pair exactly when the task is blank, or no
    client is built, or the bounded wait for the agent comes back with a
    value or an instance of [Exception]; it raises no instance of
    [Exception]; and it runs the agent at most once. *)
Theorem run_browser_task_outcomes (environ : gmap string string)
    (agent : agent_oracle) (task provider : string) (model : option string)
    (t : trace) :
  ((∃ pair t',
      run_browser_task environ agent task provider model t
      = (Return pair, t'))
   ↔ (Py.whitespace_only task = false →
      ∀ llm0, create_llm_for environ provider model = Return llm0 →
              Spec.comes_back (agent (Py.strip task) llm0 None) 300))
  ∧ (∀ e, (run_browser_task environ agent task provider model t).1 = Raise e →
          is_Exception (class_of e) = false)
  ∧ ∃ calls,
      invoked (run_browser_task environ agent task provider model t).2
      = invoked t ++ calls
      ∧ (length calls ≤ 1)%nat.
Proof.
  split; [apply run_browser_task_returns_iff|].
  destruct (run_browser_task_contained environ agent task provider model t)
    as (r & t' & -> & Hcalls & Hr).
  split; [|exact Hcalls].
  intros e [= ->]. exact Hr.
Qed.

(** C1, as amended.  An instance of [Exception] that the agent raises before
    the deadline is caught by [run_browser_task] and comes back as the pair
    of [None] and a message; nothing is propagated.  The message is the
    exception text after the label of the clause that caught it: Execution
    error for an exception that is neither a timeout nor a [ValueError],
    Configuration error for a [ValueError], and the fixed timeout text for
    a timeout. *)
Theorem run_browser_task_catches (environ : gmap string string)
    (agent : agent_oracle) (task provider : string) (model : option string)
    (llm0 : llm) (d : N) (e : exc) (t : trace) :
  Py.whitespace_only task = false →
  create_llm_for environ provider model = Return llm0 →
  left_alone (agent (Py.strip task) llm0 None) = Raises d e →
  is_Exception (class_of e) = true →
  d < 300 →
  run_browser_task environ agent task provider model t
  = (Return (None, Some (Spec.reported e)),
     {| invoked := invoked t ++ [ {| call_task := Py.strip task;
                                     call_llm := llm0;
                                     call_browser_config := None |} ];
        waited := waited t + d |}).
Proof.
  intros Hws Hllm Hagent He Hd.
  rewrite (run_browser_task_dispatched _ _ _ _ _ llm0) by done.
  unfold wait_for, run_task_with_llm, started. cbn.
  rewrite Hagent. apply N.ltb_lt in Hd. rewrite Hd, He. reflexivity.
Qed.

(** C1 on an agent that raises an exception of another class. *)
Lemma run_browser_task_catches_witness :
  run_browser_task openai_only
    (agent_raising (Exc OtherException "browser closed")) " go " "openai"
    None no_trace
  = (Return (None, Some "Execution error: browser closed"),
     {| invoked := [ {| call_task := "go"; call_llm := openai_client;
                        call_browser_config := None |} ];
        waited := 3 |}).
Proof.
  apply (run_browser_task_catches openai_only
           (agent_raising (Exc OtherException "browser closed"))
           " go " "openai" None openai_client 3
           (Exc OtherException "browser closed") no_trace);
    reflexivity.
Defined.

(** C1, as the specification words it, fails: a [ValueError] raised by the
    agent is not a timeout, and it comes back labelled as a configuration
    error, not as an execution error. *)
Lemma agent_value_error_is_relabelled :
  run_browser_task openai_only (agent_raising (Exc ValueError "boom")) "go"
    "openai" None no_trace
  = (Return (None, Some "Configuration error: boom"),
     {| invoked := [ {| call_task := "go"; call_llm := openai_client;
                        call_browser_config := None |} ];
        waited := 3 |})
  ∧ class_of (Exc ValueError "boom") ≠ TimeoutError
  ∧ ¬ Spec.is_execution_error (None, Some "Configuration error: boom").
Proof.
  split; [reflexivity|]. split; [discriminate|].
  intros [text Ht]. discriminate.
Qed.

(** C2, as amended.  The one call of the agent is awaited with a deadline of
    300 time units.  When the run is not over before then, it is cancelled;
    once the cancelled run has ended as cancelled, [extra] time units
    later, [run_browser_task] returns the timeout message, and the agent
    has been run exactly once: there is no second attempt. *)
Theorem run_browser_task_timeout (environ : gmap string string)
    (agent : agent_oracle) (task provider : string) (model : option string)
    (llm0 : llm) (extra : N) (text : string) (t : trace) :
  Py.whitespace_only task = false →
  create_llm_for environ provider model = Return llm0 →
  Spec.overruns (left_alone (agent (Py.strip task) llm0 None)) 300 →
  cancelled (agent (Py.strip task) llm0 None) 300
    = Raises extra (Exc CancelledError text) →
  run_browser_task environ agent task provider model t
  = (Return (None,
             Some "Task timed out after 5 minutes. Please try a simpler task."),
     {| invoked := invoked t ++ [ {| call_task := Py.strip task;
                                     call_llm := llm0;
                                     call_browser_config := None |} ];
        waited := waited t + (300 + extra) |}).
Proof.
  intros Hws Hllm Hover Hcancel.
  rewrite (run_browser_task_dispatched _ _ _ _ _ llm0) by done.
  unfold wait_for, run_task_with_llm, started. cbn.
  rewrite Hcancel.
  destruct (left_alone (agent (Py.strip task) llm0 None)) as [d a|d e|];
    cbn in Hover; [| |reflexivity];
    apply N.ltb_ge in Hover; rewrite Hover; reflexivity.
Qed.

(** C2 on an agent that never ends of itself. *)
Lemma run_browser_task_timeout_witness :
  run_browser_task openai_only agent_stuck "go" "openai" None no_trace
  = (Return (None,
             Some "Task timed out after 5 minutes. Please try a simpler task."),
     {| invoked := [ {| call_task := "go"; call_llm := openai_client;
                        call_browser_config := None |} ];
        waited := 300 |}).
Proof.
  apply (run_browser_task_timeout openai_only agent_stuck "go" "openai" None
           openai_client 0 "" no_trace);
    [reflexivity|reflexivity|exact I|reflexivity].
Defined.

(** C2, as the specification words it, fails: the wait is not bounded by
    the deadline, and an overrun need not end in the timeout error.  A run
    that is not over at the deadline and answers its cancellation with a
    value has that value passed on: the dispatcher returns a result and no
    error, after more than 300 time units.  And a run that does not end
    when it is cancelled keeps the dispatcher waiting: it returns
    nothing. *)
Lemma run_browser_task_passes_late_answer :
  Spec.overruns (left_alone (agent_late "go" openai_client None)) 300
  ∧ run_browser_task openai_only agent_late "go" "openai" None no_trace
    = (Return (Some {| history_truthy := true; history_str := "late" |},
               None),
       {| invoked := [ {| call_task := "go"; call_llm := openai_client;
                          call_browser_config := None |} ];
          waited := 305 |})
  ∧ Spec.overruns (left_alone (agent_deaf "go" openai_client None)) 300
  ∧ (run_browser_task openai_only agent_deaf "go" "openai" None no_trace).1
    = Blocks.
Proof.
  split; [exact I|]. split; [reflexivity|]. split; [exact I|reflexivity].
Qed.

(** A run that ends in time is handed back as it is. *)
Lemma run_browser_task_result (environ : gmap string string)
    (agent : agent_oracle) (task provider : string) (model : option string)
    (llm0 : llm) (d : N) (h : history) (t : trace) :
  Py.whitespace_only task = false →
  create_llm_for environ provider model = Return llm0 →
  left_alone (agent (Py.strip task) llm0 None) = Returns d h →
  d < 300 →
  run_browser_task environ agent task provider model t
  = (Return (Some h, None),
     {| invoked := invoked t ++ [ {| call_task := Py.strip task;
                                     call_llm := llm0;
                                     call_browser_config := None |} ];
        waited := waited t + d |}).
Proof.
  intros Hws Hllm Hagent Hd.
  rewrite (run_browser_task_dispatched _ _ _ _ _ llm0) by done.
  unfold wait_for, run_task_with_llm, started. cbn.
  rewrite Hagent. apply N.ltb_lt in Hd. rewrite Hd. reflexivity.
Qed.

End Dispatcher.

(** ** The page: the flag [task_running] *)
Section Page.
Import Flexible Streamlit Fixed Examples.

Lemma dispatches_true_iff (start_button : bool) (task_input provider : string)
    (w : world) :
  Spec.dispatches start_button task_input provider w = true ↔
  start_button = true ∧ Py.whitespace_only task_input = false
  ∧ validate_api_key (environ w !! Spec.credential_variable provider) = true.
Proof.
  unfold Spec.dispatches. rewrite !andb_true_iff, strip_truthy, negb_true_iff.
  split.
  - intros [[[Hb _] Hws] Hkey]. by repeat split.
  - intros (Hb & Hws & Hkey). repeat split; try done.
    apply truthy_true_iff. intros ->. discriminate.
Qed.

(** The three ways a dispatch of the block can end, by the way the
    dispatcher ends: it returns a pair, the page records it, sets
    [task_running] back and asks for a rerun; it lets an exception outside
    [Exception] through, and the run of the script dies with the flag set;
    or it does not come back, and the run hangs with the flag set. *)
Lemma handle_task_execution_dispatched (agent : agent_oracle)
    (now later : string) (start_button : bool) (task_input provider : string)
    (w : world) :
  Spec.dispatches start_button task_input provider w = true →
  let s :=
    set_task_running true
      (append_message {| role := "user"; content := Py.strip task_input;
                         timestamp := now |} (session w)) in
  ∃ r t,
    run_browser_task (environ w) agent (Py.strip task_input) provider
      (Some (model_name (session w))) no_trace = (r, t)
    ∧ (length (invoked t) ≤ 1)%nat
    ∧ match r with
      | Return (result, error) =>
          handle_task_execution agent now later start_button task_input
            provider w
          = (Reruns,
             with_session
               (set_task_running false
                  (if Py.truthy_opt error then
                     set_last_error error
                       (append_message
                          {| role := "assistant";
                             content := "❌ Error: " +:+ default "" error;
                             timestamp := later |} s)
                   else
                     set_last_error None
                       (set_task_count (task_count s + 1)
                          (append_message
                             {| role := "assistant";
                                content := "✅ Task completed!

" +:+ result_text result;
                                timestamp := later |} s)))) w,
             t)
      | Raise e =>
          is_Exception (class_of e) = false
          ∧ handle_task_execution agent now later start_button task_input
              provider w
            = (Crashes, with_session s w, t)
      | Blocks =>
          handle_task_execution agent now later start_button task_input
            provider w
          = (Hangs, with_session s w, t)
      end.
Proof.
  intros (-> & Hws & Hkey)%dispatches_true_iff. cbn zeta.
  unfold handle_task_execution.
  rewrite strip_truthy, Hws.
  assert (Py.truthy task_input = true) as ->.
  { apply truthy_true_iff. intros ->. discriminate. }
  cbn [andb negb].
  unfold Spec.credential_variable in Hkey. rewrite Hkey. cbn [negb].
  unfold try_except, bind.
  cbn [model_name set_task_running append_message].
  destruct (run_browser_task_contained (environ w) agent
              (Py.strip task_input) provider
              (Some (model_name (session w))) no_trace)
    as (r & t & Hrun & (calls & Hcalls & Hlen) & Hr).
  rewrite Hrun. cbn [invoked no_trace app] in Hcalls.
  exists r, t. split; [done|]. split; [by rewrite Hcalls|].
  destruct r as [[result error]|e|].
  - by destruct (Py.truthy_opt error).
  - rewrite Hr. done.
  - done.
Qed.

(** [run_browser_task] of the first version, by cases. *)
Lemma original_run_browser_task_cases (environ : gmap string string)
    (agent : agent_oracle) (task provider : string) (model : option string)
    (t : trace) :
  Original.run_browser_task environ agent task provider model t
  = match create_llm_for environ provider model with
    | Return llm0 =>
        let t' d := {| invoked := invoked t
                                  ++ [ {| call_task := task; call_llm := llm0;
                                          call_browser_config := None |} ];
                       waited := waited t + d |} in
        match left_alone (agent task llm0 None) with
        | Returns d h => (Return (Some h, None), t' d)
        | Raises d e =>
            if is_Exception (class_of e)
            then (Return (None, Some (str_of e)), t' d)
            else (Raise e, t' d)
        | Never => (Blocks, t' 0)
        end
    | Raise e => (Return (None, Some (str_of e)), t)
    | Blocks => (Blocks, t)
    end.
Proof.
  unfold Original.run_browser_task, try_except, bind, lift.
  change (Original.create_llm_for environ provider model)
    with (create_llm_for environ provider model).
  destruct (create_llm_for environ provider model) as [llm0|e|] eqn:Hllm.
  - unfold await, run_task_with_llm, started. cbn.
    destruct (left_alone (agent task llm0 None)) as [d h|d e|];
      [reflexivity| |reflexivity].
    by destruct (is_Exception (class_of e)).
  - by rewrite (create_llm_for_raises _ _ _ _ Hllm).
  - reflexivity.
Qed.





(** When the block does not dispatch, it does not touch the session: it is
    skipped, or it stops at the missing credential before the flag is set. *)
Lemma task_running_untouched (agent : agent_oracle) (now later : string)
    (start_button : bool) (task_input provider : string) (w : world) :
  Spec.dispatches start_button task_input provider w = false →
  ∃ ending w',
    handle_task_execution agent now later start_button task_input provider w
    = (ending, w', no_trace)
    ∧ (ending = Continues ∨ ending = Stops)
    ∧ session w' = session w.
Proof.
  unfold Spec.dispatches, handle_task_execution, Spec.credential_variable.
  destruct (start_button && Py.truthy task_input
            && Py.truthy (Py.strip task_input)); cbn [andb].
  - intros ->. cbn [negb]. eexists _, _. split; [reflexivity|]. by split; [right|].
  - intros _. eexists _, _. split; [reflexivity|]. by split; [left|].
Qed.

(** The three ways a dispatch can end well, on one example each. *)
Example page_after_success :
  let '(ending, w', t) :=
    handle_task_execution agent_done "10:00" "10:05" true "go" "openai"
      (fresh_world openai_only) in
  ending = Reruns ∧ task_running (session w') = false
  ∧ task_count (session w') = 1 ∧ last_error (session w') = None
  ∧ waited t = 7.
Proof. vm_compute. repeat split. Qed.

Example page_after_timeout :
  let '(ending, w', t) :=
    handle_task_execution agent_stuck "10:00" "10:05" true "go" "openai"
      (fresh_world openai_only) in
  ending = Reruns ∧ task_running (session w') = false
  ∧ last_error (session w') = Some timed_out_text
  ∧ waited t = 300.
Proof. vm_compute. repeat split. Qed.

Example page_after_error :
  let '(ending, w', t) :=
    handle_task_execution
      (agent_raising (Exc OtherException "browser closed")) "10:00" "10:05"
      true "go" "openai" (fresh_world openai_only) in
  ending = Reruns ∧ task_running (session w') = false
  ∧ last_error (session w') = Some "Execution error: browser closed".
Proof. vm_compute. repeat split. Qed.

End Page.

(** ** The first version of the page, [browser_use_ui.py] *)
Section FirstVersion.
Import Flexible Streamlit Fixed Examples.

(** C3, as the specification words it, fails in [browser_use_ui.py].  Its
    dispatcher has no test of the task: called with an empty task, it
    builds the client and runs the agent on the empty task, once, and
    returns what the agent answers. *)
Example original_runs_empty_task :
  Original.run_browser_task openai_only agent_done "" "openai" None no_trace
  = (Return (Some {| history_truthy := true; history_str := "done" |}, None),
     {| invoked := [ {| call_task := ""; call_llm := openai_client;
                        call_browser_config := None |} ];
        waited := 7 |}).
Proof. reflexivity. Qed.

(** Its dispatcher has no deadline: with an agent that never ends the call
    blocks, and the page hangs with [task_running] set. *)
Example original_hangs :
  let '(ending, w', t) :=
    Original.handle_task_execution agent_stuck "10:00" "10:05" true "go"
      "openai" (fresh_world openai_only) in
  ending = Hangs ∧ task_running (session w') = true.
Proof. vm_compute. split; reflexivity. Qed.


(** C7 in [browser_use_ui.py].  Its [save_api_keys] has no validation: with
    four empty keys, none of which passes [validate_api_key], it writes the
    file all the same, whatever the reader is. *)
Example original_saves_without_keys :
  validate_api_key (Some "") = false
  ∧ dotenv_file (fresh_world ∅) = None
  ∧ ∀ load_dotenv,
      match Original.save_api_keys load_dotenv (Some "") (Some "") (Some "")
              (Some "") (fresh_world ∅) with
      | Return w' => is_Some (dotenv_file w')
      | _ => False
      end.
Proof.
  split; [reflexivity|]. split; [reflexivity|].
  intros load_dotenv. cbn. by eexists.
Qed.

End FirstVersion.

(** ** Settings store *)
Section Settings.
Import Flexible Streamlit Fixed Examples.

(** When none of the four credentials passes [validate_api_key],
    [save_api_keys] of [browser_use_ui_fixed.py] returns [False] after
    showing the error; it does not open the file: the file, the environment
    and the session are as they were, whatever reader [load_dotenv] is. *)
Theorem save_api_keys_rejects
    (load_dotenv : string → gmap string string → gmap string string)
    (k1 k2 k3 k4 : option string) (w : world) :
  validate_api_key k1 = false → validate_api_key k2 = false →
  validate_api_key k3 = false → validate_api_key k4 = false →
  save_api_keys load_dotenv k1 k2 k3 k4 w
    = (false, st_error "❌ Please provide at least one valid API key" w)
  ∧ dotenv_file (save_api_keys load_dotenv k1 k2 k3 k4 w).2 = dotenv_file w
  ∧ environ (save_api_keys load_dotenv k1 k2 k3 k4 w).2 = environ w
  ∧ session (save_api_keys load_dotenv k1 k2 k3 k4 w).2 = session w.
Proof.
  intros H1 H2 H3 H4. unfold save_api_keys.
  rewrite H1, H2, H3, H4. repeat split.
Qed.

(** On a short key, a missing key, a blank key and a placeholder. *)
Lemma save_api_keys_rejects_witness :
  save_api_keys Dotenv.load_dotenv (Some "abc") None (Some "   ")
      (Some "your_api_key_here") (fresh_world openai_only)
    = (false,
       st_error "❌ Please provide at least one valid API key"
         (fresh_world openai_only))
  ∧ dotenv_file
      (save_api_keys Dotenv.load_dotenv (Some "abc") None (Some "   ")
         (Some "your_api_key_here") (fresh_world openai_only)).2
    = dotenv_file (fresh_world openai_only)
  ∧ environ
      (save_api_keys Dotenv.load_dotenv (Some "abc") None (Some "   ")
         (Some "your_api_key_here") (fresh_world openai_only)).2
    = environ (fresh_world openai_only)
  ∧ session
      (save_api_keys Dotenv.load_dotenv (Some "abc") None (Some "   ")
         (Some "your_api_key_here") (fresh_world openai_only)).2
    = session (fresh_world openai_only).
Proof.
  apply (save_api_keys_rejects Dotenv.load_dotenv (Some "abc") None
           (Some "   ") (Some "your_api_key_here") (fresh_world openai_only));
    reflexivity.
Defined.

(** With one valid credential and a writable directory the file is
    rewritten as a whole and the environment is read back from it. *)
Lemma save_api_keys_writes
    (load_dotenv : string → gmap string string → gmap string string)
    (k1 k2 k3 k4 : option string) (w : world) :
  validate_api_key k1 = true ∨ validate_api_key k2 = true
  ∨ validate_api_key k3 = true ∨ validate_api_key k4 = true →
  write_error w = None →
  save_api_keys load_dotenv k1 k2 k3 k4 w
  = (true,
     with_environ (load_dotenv (env_content k1 k2 k3 k4 w) (environ w))
       (with_dotenv_file (Some (env_content k1 k2 k3 k4 w)) w)).
Proof.
  intros Hvalid Hwrite. unfold save_api_keys, write_dotenv.
  assert (existsb id [validate_api_key k1; validate_api_key k2;
                      validate_api_key k3; validate_api_key k4] = true) as ->.
  { cbn [existsb id]. destruct Hvalid as [-> | [-> | [-> | ->]]];
      rewrite ?orb_true_r; reflexivity. }
  cbn [negb]. rewrite Hwrite. reflexivity.
Qed.

(** The text [save_api_keys] writes, entry by entry. *)
Lemma env_content_entries (k1 k2 k3 k4 : option string) (w : world) :
  env_content k1 k2 k3 k4 w
  = Spec.unlines
      (map Spec.render
         (Spec.settings_entries
            (stripped_or_empty k1) (stripped_or_empty k2)
            (stripped_or_empty k3) (stripped_or_empty k4)
            (llm_provider (session w))
            (default "gpt-4o" (environ w !! "OPENAI_MODEL"))
            (default "claude-3-5-sonnet-20240620"
               (environ w !! "ANTHROPIC_MODEL"))
            (default "gemini-1.5-pro" (environ w !! "GOOGLE_MODEL"))
            (default "openai/gpt-4o" (environ w !! "OPENROUTER_MODEL")))).
Proof. reflexivity. Qed.

Lemma original_env_content_entries (k1 k2 k3 k4 : option string)
    (w : world) :
  Original.env_content k1 k2 k3 k4 w
  = Spec.unlines
      (map Spec.render
         (Spec.settings_entries
            (Original.formatted k1) (Original.formatted k2)
            (Original.formatted k3) (Original.formatted k4)
            (llm_provider (session w))
            (default "gpt-4o" (environ w !! "OPENAI_MODEL"))
            (default "claude-3-5-sonnet-20240620"
               (environ w !! "ANTHROPIC_MODEL"))
            (default "gemini-1.5-pro" (environ w !! "GOOGLE_MODEL"))
            (default "openai/gpt-4o" (environ w !! "OPENROUTER_MODEL")))).
Proof. reflexivity. Qed.

Lemma settings_entries_well_formed (k1 k2 k3 k4 p m1 m2 m3 m4 : string) :
  forallb Spec.plain_value [k1; k2; k3; k4] = true →
  forallb Spec.plain_value [p; m1; m2; m3; m4] = true →
  forallb Spec.well_formed
    (Spec.settings_entries k1 k2 k3 k4 p m1 m2 m3 m4) = true.
Proof.
  cbn [forallb]. rewrite !andb_true_iff.
  intros (Hk1 & Hk2 & Hk3 & Hk4 & _) (Hp & Hm1 & Hm2 & Hm3 & Hm4 & _).
  unfold Spec.settings_entries. cbn [forallb Spec.well_formed].
  rewrite Hk1, Hk2, Hk3, Hk4, Hp, Hm1, Hm2, Hm3, Hm4.
  vm_compute. reflexivity.
Qed.

(** What a reader of the settings files makes of the file written. *)
Lemma settings_read
    (load_dotenv : string → gmap string string → gmap string string)
    (k1 k2 k3 k4 p m1 m2 m3 m4 : string) (environ : gmap string string) :
  Spec.reads_settings load_dotenv →
  forallb Spec.plain_value [k1; k2; k3; k4] = true →
  forallb Spec.plain_value [p; m1; m2; m3; m4] = true →
  let environ' :=
    load_dotenv
      (Spec.unlines
         (map Spec.render
            (Spec.settings_entries k1 k2 k3 k4 p m1 m2 m3 m4))) environ in
  environ' !! "OPENAI_API_KEY" = Some k1
  ∧ environ' !! "ANTHROPIC_API_KEY" = Some k2
  ∧ environ' !! "GOOGLE_API_KEY" = Some k3
  ∧ environ' !! "OPENROUTER_API_KEY" = Some k4
  ∧ environ' !! "LLM_PROVIDER" = Some p.
Proof.
  intros Hreads Hkeys Hkept. cbn zeta.
  rewrite Hreads by by apply settings_entries_well_formed.
  unfold Spec.settings_entries. cbn [foldl Spec.assign].
  repeat split;
    rewrite !lookup_insert_ne by done; by rewrite lookup_insert_eq.
Qed.

(** C6, as amended.  Take a reader that reads settings files as
    [Spec.reads_settings] says, a directory that can be written to, and a
    provider and models that are plain values.  In
    [browser_use_ui_fixed.py], when at least one credential passes
    [validate_api_key] and the credentials without their surrounding white
    space are plain values, [save_api_keys] followed by [load] gives back
    every credential with its surrounding white space removed (the empty
    string for a missing one) and the provider of the session.  In
    [browser_use_ui.py], when the credentials are plain values,
    [save_api_keys] followed by [load] gives them back with the provider.
    The model is not saved: [load] gives the empty model. *)
Theorem save_then_load
    (load_dotenv : string → gmap string string → gmap string string)
    (k1 k2 k3 k4 : option string) (w : world) :
  Spec.reads_settings load_dotenv →
  write_error w = None →
  forallb Spec.plain_value (Spec.kept_values w) = true →
  ((validate_api_key k1 = true ∨ validate_api_key k2 = true
    ∨ validate_api_key k3 = true ∨ validate_api_key k4 = true) →
   forallb Spec.plain_value (map stripped_or_empty [k1; k2; k3; k4]) = true →
   (save_api_keys load_dotenv k1 k2 k3 k4 w).1 = true
   ∧ load (save_api_keys load_dotenv k1 k2 k3 k4 w).2
     = {| openai_credential := stripped_or_empty k1;
          anthropic_credential := stripped_or_empty k2;
          google_credential := stripped_or_empty k3;
          openrouter_credential := stripped_or_empty k4;
          provider_selection := llm_provider (session w);
          model_selection := "" |})
  ∧ (forallb Spec.plain_value (map Original.formatted [k1; k2; k3; k4])
       = true →
     ∃ w',
       Original.save_api_keys load_dotenv k1 k2 k3 k4 w = Return w'
       ∧ load w'
         = {| openai_credential := Original.formatted k1;
              anthropic_credential := Original.formatted k2;
              google_credential := Original.formatted k3;
              openrouter_credential := Original.formatted k4;
              provider_selection := llm_provider (session w);
              model_selection := "" |}).
Proof.
  intros Hreads Hwrite Hkept. split.
  - intros Hvalid Hkeys.
    rewrite save_api_keys_writes by done. split; [reflexivity|].
    unfold load. cbn [snd environ with_environ with_dotenv_file].
    rewrite env_content_entries.
    destruct (settings_read load_dotenv _ _ _ _ _ _ _ _ _ (environ w)
                Hreads Hkeys Hkept) as (-> & -> & -> & -> & ->).
    reflexivity.
  - intros Hkeys.
    unfold Original.save_api_keys, write_dotenv. rewrite Hwrite.
    eexists. split; [reflexivity|].
    unfold load, reload_environment.
    cbn [dotenv_file environ with_environ with_dotenv_file].
    rewrite original_env_content_entries.
    destruct (settings_read load_dotenv _ _ _ _ _ _ _ _ _ (environ w)
                Hreads Hkeys Hkept) as (-> & -> & -> & -> & ->).
    reflexivity.
Qed.

Lemma lines_line (l rest : string) :
  Spec.no_line_feed l = true →
  Dotenv.lines (l +:+ String "010" rest) = l :: Dotenv.lines rest.
Proof.
  induction l as [|c l IH]; intros Hl; [reflexivity|].
  cbn [Spec.no_line_feed] in Hl. apply andb_true_iff in Hl as [Hc Hl].
  change (Dotenv.lines (String c l +:+ String "010" rest))
    with (if Ascii.eqb c "010"
          then "" :: Dotenv.lines (l +:+ String "010" rest)
          else match Dotenv.lines (l +:+ String "010" rest) with
               | l0 :: ls => String c l0 :: ls
               | [] => [String c ""]
               end).
  apply negb_true_iff in Hc. rewrite Hc, IH by done. reflexivity.
Qed.

Lemma lines_unlines (ls : list string) :
  forallb Spec.no_line_feed ls = true →
  Dotenv.lines (Spec.unlines ls) = ls ++ [""].
Proof.
  induction ls as [|l ls IH]; [reflexivity|].
  cbn [forallb Spec.unlines]. intros [Hl Hls]%andb_true_iff.
  by rewrite lines_line, IH.
Qed.

Lemma every_impl (test test' : ascii → bool) (s : string) :
  (∀ c, test c = true → test' c = true) →
  Spec.every test s = true → Spec.every test' s = true.
Proof.
  intros Himpl. induction s as [|c s IH]; [done|].
  cbn [Spec.every]. intros [Hc Hs]%andb_true_iff.
  by rewrite (Himpl c Hc), IH.
Qed.

Lemma every_no_line_feed (test : ascii → bool) (s : string) :
  test "010"%char = false →
  Spec.every test s = true → Spec.no_line_feed s = true.
Proof.
  intros Htest. induction s as [|c s IH]; [done|].
  cbn [Spec.every Spec.no_line_feed]. intros [Hc Hs]%andb_true_iff.
  rewrite IH by done. rewrite andb_true_r. apply negb_true_iff.
  destruct (Ascii.eqb_spec c "010") as [->|]; [congruence|done].
Qed.

Lemma no_line_feed_app (s s' : string) :
  Spec.no_line_feed s = true → Spec.no_line_feed s' = true →
  Spec.no_line_feed (s +:+ s') = true.
Proof.
  intros Hs Hs'. induction s as [|c s IH]; [done|].
  cbn [Spec.no_line_feed] in *. apply andb_true_iff in Hs as [Hc Hs].
  change (String c s +:+ s') with (String c (s +:+ s')).
  cbn [Spec.no_line_feed]. by rewrite Hc, IH.
Qed.

Lemma well_formed_no_line_feed (e : Spec.entry) :
  Spec.well_formed e = true → Spec.no_line_feed (Spec.render e) = true.
Proof.
  destruct e as [text| |name value]; cbn [Spec.well_formed Spec.render].
  - intros H. apply (no_line_feed_app "#"); [done|].
    by apply (every_no_line_feed _ _ eq_refl) in H.
  - done.
  - unfold Spec.plain_value. rewrite !andb_true_iff.
    intros [[_ Hname] [Hvalue _]].
    apply no_line_feed_app;
      [by apply (every_no_line_feed _ _ eq_refl) in Hname|].
    apply (no_line_feed_app "="); [done|].
    by apply (every_no_line_feed _ _ eq_refl) in Hvalue.
Qed.

Lemma cut_at_equals_name (name value : string) :
  Spec.every Spec.name_char name = true →
  Dotenv.cut_at_equals (name +:+ "=" +:+ value) = Some (name, value).
Proof.
  induction name as [|c name IH]; [done|].
  cbn [Spec.every]. intros [Hc Hname]%andb_true_iff.
  change (String c name +:+ "=" +:+ value)
    with (String c (name +:+ "=" +:+ value)).
  cbn [Dotenv.cut_at_equals]. rewrite IH by done.
  destruct (Ascii.eqb_spec c "=") as [->|]; [discriminate|done].
Qed.

Lemma parse_line_render (e : Spec.entry) :
  Spec.well_formed e = true →
  Dotenv.parse_line (Spec.render e)
  = match e with
    | Spec.Setting name value => Some (name, value)
    | _ => None
    end.
Proof.
  destruct e as [text| |name value]; cbn [Spec.well_formed Spec.render];
    [done|done|].
  rewrite !andb_true_iff. intros [[Hne Hname] _].
  unfold Dotenv.parse_line.
  rewrite cut_at_equals_name by done.
  destruct name as [|c name]; [discriminate|].
  cbn [Spec.every] in Hname. apply andb_true_iff in Hname as [Hc _].
  change (String c name +:+ "=" +:+ value)
    with (String c (name +:+ "=" +:+ value)).
  destruct (Ascii.eqb_spec c "#") as [->|Hc']; [discriminate|].
  destruct c as [[] [] [] [] [] [] [] []]; try reflexivity; done.
Qed.

(** The reader modelled in [Dotenv] reads settings files as the scripts
    rely on. *)
Lemma dotenv_reads_settings : Spec.reads_settings Dotenv.load_dotenv.
Proof.
  intros entries environ Hwf.
  unfold Dotenv.load_dotenv, Dotenv.parse.
  rewrite lines_unlines.
  2:{ rewrite forallb_forall in *. intros l [e [<- He]]%in_map_iff.
      by apply well_formed_no_line_feed, Hwf. }
  unfold Dotenv.bind_all.
  revert environ. induction entries as [|e entries IH]; intros environ.
  { reflexivity. }
  cbn [forallb] in Hwf. apply andb_true_iff in Hwf as [He Hwf].
  cbn [map app omap list_omap]. rewrite (parse_line_render e He).
  destruct e as [text| |name value]; cbn [foldl Spec.assign fst snd];
    by rewrite <-IH.
Qed.

(** C6 on a padded OpenAI key, read by the reader of [Dotenv]. *)
Lemma save_then_load_witness :
  ((save_api_keys Dotenv.load_dotenv (Some "  sk-validkey1234 ") None
      (Some "abc") None (fresh_world ∅)).1 = true
   ∧ load (save_api_keys Dotenv.load_dotenv (Some "  sk-validkey1234 ") None
             (Some "abc") None (fresh_world ∅)).2
     = {| openai_credential := "sk-validkey1234";
          anthropic_credential := "";
          google_credential := "abc";
          openrouter_credential := "";
          provider_selection := "openai";
          model_selection := "" |})
  ∧ (∃ w',
       Original.save_api_keys Dotenv.load_dotenv (Some "sk-validkey1234")
         (Some "") (Some "abc") (Some "") (fresh_world ∅) = Return w'
       ∧ load w'
         = {| openai_credential := "sk-validkey1234";
              anthropic_credential := "";
              google_credential := "abc";
              openrouter_credential := "";
              provider_selection := "openai";
              model_selection := "" |}).
Proof.
  split.
  - apply (save_then_load Dotenv.load_dotenv (Some "  sk-validkey1234 ")
             None (Some "abc") None (fresh_world ∅) dotenv_reads_settings
             eq_refl);
      [vm_compute; reflexivity|by left|vm_compute; reflexivity].
  - apply (save_then_load Dotenv.load_dotenv (Some "sk-validkey1234")
             (Some "") (Some "abc") (Some "") (fresh_world ∅)
             dotenv_reads_settings eq_refl);
      vm_compute; reflexivity.
Defined.

(** Two sets of credentials that differ in white space only leave the same
    file and the same state, whatever the reader is: no reader can give
    both of them back. *)
Lemma save_api_keys_forgets_blanks
    (load_dotenv : string → gmap string string → gmap string string)
    (w : world) :
  save_api_keys load_dotenv (Some " sk-validkey1234 ") None None None w
  = save_api_keys load_dotenv (Some "sk-validkey1234") None None None w.
Proof. reflexivity. Qed.

(** C6, as the specification words it, fails: a credential with a blank on
    either side is configured, the save succeeds, and with every reader of
    settings files [load] yields the credential without the blanks, which
    is another string; and the model the user has picked is not in what
    [load] yields. *)
Lemma save_then_load_strips :
  validate_api_key (Some " sk-validkey1234 ") = true
  ∧ "sk-validkey1234" ≠ " sk-validkey1234 "
  ∧ model_name (session (world_with_model ∅)) = "gpt-4o-mini"
  ∧ ∀ load_dotenv,
      Spec.reads_settings load_dotenv →
      (save_api_keys load_dotenv (Some " sk-validkey1234 ") None None None
         (world_with_model ∅)).1 = true
      ∧ openai_credential
          (load (save_api_keys load_dotenv (Some " sk-validkey1234 ") None
                   None None (world_with_model ∅)).2)
        = "sk-validkey1234"
      ∧ model_selection
          (load (save_api_keys load_dotenv (Some " sk-validkey1234 ") None
                   None None (world_with_model ∅)).2)
        = "".
Proof.
  split; [reflexivity|]. split; [discriminate|]. split; [reflexivity|].
  intros load_dotenv Hreads.
  rewrite save_api_keys_writes by (try left; reflexivity).
  split; [reflexivity|]. split; [|reflexivity].
  unfold load. cbn [snd environ with_environ with_dotenv_file].
  rewrite env_content_entries.
  destruct (settings_read load_dotenv
              (stripped_or_empty (Some " sk-validkey1234 "))
              (stripped_or_empty None) (stripped_or_empty None)
              (stripped_or_empty None)
              (llm_provider (session (world_with_model ∅)))
              (default "gpt-4o"
                 (environ (world_with_model ∅) !! "OPENAI_MODEL"))
              (default "claude-3-5-sonnet-20240620"
                 (environ (world_with_model ∅) !! "ANTHROPIC_MODEL"))
              (default "gemini-1.5-pro"
                 (environ (world_with_model ∅) !! "GOOGLE_MODEL"))
              (default "openai/gpt-4o"
                 (environ (world_with_model ∅) !! "OPENROUTER_MODEL"))
              (environ (world_with_model ∅)) Hreads)
    as (-> & _); [vm_compute; reflexivity..|].
  vm_compute. reflexivity.
Qed.

End Settings.
(** * Further properties of the code *)

(** ** More on credentials *)
Section MoreCredentials.
Import Fixed.

(** A key that [validate_api_key] accepts is written to the file without
    its surrounding white space; the key as written is accepted again
    exactly when it is not one of the placeholders (the placeholder test is
    made on the key as typed, the other tests on the stripped key). *)
Theorem validate_api_key_after_strip (key : string) :
  validate_api_key (Some key) = true →
  validate_api_key (Some (stripped_or_empty (Some key)))
  = negb (bool_decide (Py.strip key ∈ placeholders)).
Proof.
  rewrite !validate_api_key_tests.
  rewrite !andb_true_iff, !negb_true_iff.
  intros [[[Hk He] _] Hl].
  unfold stripped_or_empty. cbn [Py.truthy_opt]. unfold Py.truthy.
  change (default "" (Some key)) with key.
  rewrite Hk. cbn [negb]. rewrite strip_idempotent, He, Hl.
  cbn [negb andb]. by rewrite andb_true_r.
Qed.

(** On a padded placeholder: accepted as typed, refused as written. *)
Lemma validate_api_key_after_strip_witness :
  validate_api_key (Some (stripped_or_empty (Some " your_api_key_here")))
  = negb (bool_decide (Py.strip " your_api_key_here" ∈ placeholders)).
Proof.
  apply (validate_api_key_after_strip " your_api_key_here"). reflexivity.
Defined.

End MoreCredentials.

(** ** More on the client factory *)

(** The four constructors on a given provider name, one condition at a
    time. *)
Ltac case_constructors :=
  unfold Fixed.create_llm_for, FlexibleScript.create_llm,
    Flexible.create_openai_llm, Flexible.create_anthropic_llm,
    Flexible.create_google_llm, Flexible.create_openrouter_llm,
    Flexible.model_or_env;
  cbn [String.eqb Ascii.eqb Bool.eqb]; cbn zeta;
  repeat match goal with
         | |- context [Py.truthy_opt (?e !! ?k)] =>
             let Hk := fresh "Hkey" in
             destruct (Py.truthy_opt (e !! k)) eqn:Hk
         | |- context [bool_decide (?x = Some ?y)] =>
             destruct (bool_decide (x = Some y))
         end;
  cbn [negb orb andb].

Section MoreFactory.
Import Flexible Fixed FlexibleScript Terms.

Lemma get_available_providers_filter (environ : gmap string string) :
  get_available_providers environ
  = List.filter (Spec.listed environ) Spec.enumeration.
Proof.
  unfold get_available_providers, Spec.enumeration.
  cbn [List.filter].
  rewrite listed_openai, listed_anthropic, listed_google, listed_openrouter.
  case_conditions; reflexivity.
Qed.

Lemma elem_of_get_available_providers (environ : gmap string string)
    (provider : string) :
  provider ∈ get_available_providers environ
  ↔ provider ∈ Spec.enumeration ∧ Spec.listed environ provider = true.
Proof.
  rewrite get_available_providers_filter, !list_elem_of_In.
  apply filter_In.
Qed.

Lemma elem_of_enumeration (provider : string) :
  provider ∈ Spec.enumeration
  ↔ provider = "openai" ∨ provider = "anthropic" ∨ provider = "google"
    ∨ provider = "openrouter".
Proof.
  unfold Spec.enumeration. rewrite !elem_of_cons, elem_of_nil. tauto.
Qed.

Lemma create_llm_for_outside (environ : gmap string string)
    (provider : string) (model : option string) :
  provider ∉ Spec.enumeration →
  create_llm_for environ provider model
  = Raise (Exc ValueError ("Unsupported provider: " +:+ provider)).
Proof.
  unfold Spec.enumeration. rewrite !not_elem_of_cons. intros (?&?&?&?&_).
  unfold create_llm_for.
  rewrite !(proj2 (String.eqb_neq _ _)) by done. reflexivity.
Qed.

Lemma create_llm_for_listed (environ : gmap string string)
    (provider : string) (model : option string) :
  provider ∈ Spec.enumeration →
  (∃ client, create_llm_for environ provider model = Return client)
  ↔ Spec.listed environ provider = true.
Proof.
  intros [-> | [-> | [-> | ->]]]%elem_of_enumeration;
    rewrite ?listed_openai, ?listed_anthropic, ?listed_google,
      ?listed_openrouter;
    case_constructors;
    (split; [intros [client Hc]|intros Hl]); (done || by eexists).
Qed.

Lemma create_llm_for_available_iff (environ : gmap string string)
    (provider : string) (model : option string) :
  (∃ client, create_llm_for environ provider model = Return client)
  ↔ provider ∈ get_available_providers environ.
Proof.
  rewrite elem_of_get_available_providers.
  destruct (decide (provider ∈ Spec.enumeration)) as [Hin|Hout].
  - rewrite create_llm_for_listed by done. tauto.
  - rewrite create_llm_for_outside by done.
    split; [intros [? ?]; discriminate|intros [? _]; done].
Qed.

(** The factory and the registry agree: [create_llm_for] builds a client
    for a provider name, whatever the model asked for, exactly when
    [get_available_providers] lists that name. *)
Theorem create_llm_for_returns_iff (environ : gmap string string)
    (provider : string) (model : option string) :
  (∃ client, create_llm_for environ provider model = Return client)
  ↔ provider ∈ get_available_providers environ.
Proof. apply create_llm_for_available_iff. Qed.

Lemma create_llm_for_enumerated (environ : gmap string string)
    (provider : string) (model : option string) (client : llm) :
  create_llm_for environ provider model = Return client →
  provider ∈ Spec.enumeration.
Proof.
  intros Hc. destruct (decide (provider ∈ Spec.enumeration)); [done|].
  rewrite create_llm_for_outside in Hc by done. discriminate.
Qed.

Lemma create_llm_for_client_facts (environ : gmap string string)
    (provider : string) (asked : option string) (client : llm) :
  create_llm_for environ provider asked = Return client →
  client_model client
    = (if Py.truthy_opt asked then default "" asked
       else default (default "" (head (get_model_options provider)))
              (environ !! (Py.upper provider +:+ "_MODEL")))
  ∧ client_api_key client
    = default "" (environ !! Spec.credential_variable provider)
  ∧ Py.truthy (client_api_key client) = true
  ∧ client_temperature client = zero_temperature.
Proof.
  intros Hc. pose proof (create_llm_for_enumerated _ _ _ _ Hc) as Hin.
  apply elem_of_enumeration in Hin.
  destruct Hin as [-> | [-> | [-> | ->]]]; revert Hc; case_constructors;
    try discriminate; intros [= <-];
    cbn [client_model client_api_key client_temperature Flexible.model
         Flexible.api_key Flexible.temperature anthropic_model_name
         anthropic_api_key anthropic_temperature google_model google_api_key
         google_temperature];
    repeat split; try done;
    match goal with
    | H : Py.truthy_opt (environ !! ?k) = true |- _ =>
        destruct (environ !! k); [exact H|discriminate]
    end.
Qed.

(** What a client is built from.  Its model is the one asked for when that
    is given and non-empty, else the provider's MODEL variable of the
    environment, else the built-in default, which is the first entry of the
    provider's list in [get_model_options]; its credential is the non-empty
    value of the provider's API_KEY variable; its temperature is zero. *)
Theorem create_llm_for_client (environ : gmap string string)
    (provider : string) (asked : option string) (client : llm) :
  create_llm_for environ provider asked = Return client →
  client_model client
    = (if Py.truthy_opt asked then default "" asked
       else default (default "" (head (get_model_options provider)))
              (environ !! (Py.upper provider +:+ "_MODEL")))
  ∧ client_api_key client
    = default "" (environ !! Spec.credential_variable provider)
  ∧ Py.truthy (client_api_key client) = true
  ∧ client_temperature client = zero_temperature.
Proof. apply create_llm_for_client_facts. Qed.

(** On the OpenRouter client of [site_url_only], asked for no model. *)
Lemma create_llm_for_client_witness :
  client_model
    (ChatOpenAI {|
       base_url := Some "https://openrouter.ai/api/v1";
       api_key := "sk-or-validkey1234";
       model := "openai/gpt-4o";
       temperature := zero_temperature;
       default_headers := Some {[ "HTTP-Referer" := "https://example.org" ]}
     |})
    = (if Py.truthy_opt None then default "" None
       else default (default "" (head (get_model_options "openrouter")))
              (Examples.site_url_only !! (Py.upper "openrouter" +:+ "_MODEL")))
  ∧ client_api_key
      (ChatOpenAI {|
         base_url := Some "https://openrouter.ai/api/v1";
         api_key := "sk-or-validkey1234";
         model := "openai/gpt-4o";
         temperature := zero_temperature;
         default_headers := Some {[ "HTTP-Referer" := "https://example.org" ]}
       |})
    = default ""
        (Examples.site_url_only !! Spec.credential_variable "openrouter")
  ∧ Py.truthy
      (client_api_key
         (ChatOpenAI {|
            base_url := Some "https://openrouter.ai/api/v1";
            api_key := "sk-or-validkey1234";
            model := "openai/gpt-4o";
            temperature := zero_temperature;
            default_headers :=
              Some {[ "HTTP-Referer" := "https://example.org" ]}
          |})) = true
  ∧ client_temperature
      (ChatOpenAI {|
         base_url := Some "https://openrouter.ai/api/v1";
         api_key := "sk-or-validkey1234";
         model := "openai/gpt-4o";
         temperature := zero_temperature;
         default_headers := Some {[ "HTTP-Referer" := "https://example.org" ]}
       |}) = zero_temperature.
Proof.
  apply (create_llm_for_client Examples.site_url_only "openrouter" None).
  vm_compute. reflexivity.
Defined.

(** The two copies of the provider chain are the same function. *)
Lemma original_create_llm_for (environ : gmap string string)
    (provider : string) (model : option string) :
  Original.create_llm_for environ provider model
  = create_llm_for environ provider model.
Proof. reflexivity. Qed.

Lemma create_llm_effective (environ : gmap string string)
    (provider model : option string) :
  create_llm environ provider model
  = create_llm_for environ (effective_provider environ provider) model.
Proof.
  unfold create_llm, effective_provider, create_llm_for.
  destruct (Py.truthy_opt provider); reflexivity.
Qed.

(** [create_llm] of the script builds a client exactly when the provider it
    goes by is listed by [get_available_providers].  A name given as
    argument is taken as written; only the name read from [LLM_PROVIDER] is
    lower-cased first, and an [LLM_PROVIDER] that is set but empty is not
    replaced by the default. *)
Theorem create_llm_returns_iff (environ : gmap string string)
    (provider model : option string) :
  (∃ client, create_llm environ provider model = Return client)
  ↔ effective_provider environ provider ∈ get_available_providers environ.
Proof.
  rewrite create_llm_effective. apply create_llm_for_available_iff.
Qed.

End MoreFactory.

(** ** More on the dispatcher *)
Section MoreDispatcher.
Import Flexible Streamlit Fixed Examples Terms.

Lemma reported_nonempty (e : exc) : Spec.reported e ≠ "".
Proof. unfold Spec.reported. destruct (class_of e); discriminate. Qed.

Lemma app_singleton_neq {A} (l : list A) (x : A) : l ++ [x] ≠ l.
Proof.
  intros H. apply (f_equal length) in H.
  rewrite length_app in H. simpl in H. lia.
Qed.

Lemma run_browser_task_invoked (environ : gmap string string)
    (agent : agent_oracle) (task provider : string) (model : option string)
    (t : trace) :
  invoked (run_browser_task environ agent task provider model t).2
  = invoked t ++
      (if Py.whitespace_only task then []
       else match create_llm_for environ provider model with
            | Return llm0 => [run_of (Py.strip task) llm0]
            | _ => []
            end).
Proof.
  destruct (Py.whitespace_only task) eqn:Hws.
  { rewrite run_browser_task_refuses_blank by done. cbn. by rewrite app_nil_r. }
  destruct (create_llm_for environ provider model) as [llm0|e|] eqn:Hllm.
  - rewrite (run_browser_task_dispatched _ _ _ _ _ llm0) by done.
    pose proof (wait_for_invoked
                  (run_task_with_llm agent (Py.strip task) llm0 None) 300 t)
      as Hi.
    destruct (wait_for _ _ _) as [[h|e|] t']; [exact Hi| |exact Hi].
    by destruct (is_Exception (class_of e)).
  - destruct (decide (provider = "")) as [->|Hp].
    + rewrite run_browser_task_no_provider by done. cbn. by rewrite app_nil_r.
    + rewrite (run_browser_task_no_client _ _ _ _ _ e) by done.
      cbn. by rewrite app_nil_r.
  - by apply create_llm_for_not_blocks in Hllm.
Qed.

(** When the dispatcher runs the agent.  [run_browser_task] starts the agent
    exactly when the task is not blank and the provider is one that
    [get_available_providers] lists; it then starts it once, on the stripped
    task and the client of the factory.  In every other case the agent is
    not started. *)
Theorem run_browser_task_runs_agent_iff (environ : gmap string string)
    (agent : agent_oracle) (task provider : string) (model : option string)
    (t : trace) :
  invoked (run_browser_task environ agent task provider model t).2
  = invoked t ++
      (if Py.whitespace_only task then []
       else match create_llm_for environ provider model with
            | Return llm0 => [run_of (Py.strip task) llm0]
            | _ => []
            end)
  ∧ (invoked (run_browser_task environ agent task provider model t).2
       ≠ invoked t
     ↔ Py.whitespace_only task = false
       ∧ provider ∈ get_available_providers environ).
Proof.
  split; [apply run_browser_task_invoked|].
  rewrite run_browser_task_invoked,
    <-(create_llm_for_available_iff environ provider model).
  destruct (Py.whitespace_only task).
  { rewrite app_nil_r. split; [done|]. intros [? _]. discriminate. }
  destruct (create_llm_for environ provider model) as [llm0|e|].
  - split; [intros _; split; [done|by eexists]|].
    intros _. apply app_singleton_neq.
  - rewrite app_nil_r. split; [done|]. intros [_ [? ?]]. discriminate.
  - rewrite app_nil_r. split; [done|]. intros [_ [? ?]]. discriminate.
Qed.

Lemma run_browser_task_pair (environ : gmap string string)
    (agent : agent_oracle) (task provider : string) (model : option string)
    (t t' : trace) (pair : option history * option string) :
  run_browser_task environ agent task provider model t = (Return pair, t') →
  (∃ h, pair = (Some h, None))
  ∨ (∃ text, pair = (None, Some text) ∧ text ≠ "").
Proof.
  destruct (Py.whitespace_only task) eqn:Hws.
  { rewrite run_browser_task_refuses_blank by done.
    intros [= <- _]. right. eexists. split; [reflexivity|discriminate]. }
  destruct (decide (provider = "")) as [->|Hp].
  { rewrite run_browser_task_no_provider by done.
    intros [= <- _]. right. eexists. split; [reflexivity|discriminate]. }
  destruct (create_llm_for environ provider model) as [llm0|e|] eqn:Hllm.
  - rewrite (run_browser_task_dispatched _ _ _ _ _ llm0) by done.
    destruct (wait_for _ _ _) as [[h|e|] t'']; [| |discriminate].
    + intros [= <- _]. left. by eexists.
    + destruct (is_Exception (class_of e)); [|discriminate].
      intros [= <- _]. right. eexists.
      split; [reflexivity|apply reported_nonempty].
  - rewrite (run_browser_task_no_client _ _ _ _ _ e) by done.
    intros [= <- _]. right. eexists.
    split; [reflexivity|apply reported_nonempty].
  - by apply create_llm_for_not_blocks in Hllm.
Qed.

(** When [run_browser_task] does not return a pair, the agent has been
    started. *)
Lemma run_browser_task_not_returned (environ : gmap string string)
    (agent : agent_oracle) (task provider : string) (model : option string)
    (t : trace) :
  (∀ pair, (run_browser_task environ agent task provider model t).1
           ≠ Return pair) →
  ∃ llm0,
    Py.whitespace_only task = false
    ∧ create_llm_for environ provider model = Return llm0
    ∧ invoked (run_browser_task environ agent task provider model t).2
      = invoked t ++ [run_of (Py.strip task) llm0].
Proof.
  intros Hnot. rewrite run_browser_task_invoked.
  destruct (Py.whitespace_only task) eqn:Hws.
  { rewrite run_browser_task_refuses_blank in Hnot by done.
    by edestruct Hnot. }
  destruct (decide (provider = "")) as [->|Hp].
  { rewrite run_browser_task_no_provider in Hnot by done.
    by edestruct Hnot. }
  destruct (create_llm_for environ provider model) as [llm0|e|] eqn:Hllm.
  - by exists llm0.
  - rewrite (run_browser_task_no_client _ _ _ _ _ e) in Hnot by done.
    by edestruct Hnot.
  - by apply create_llm_for_not_blocks in Hllm.
Qed.

(** The pair [run_browser_task] returns has exactly one side: a result
    and no error, or no result and an error text that is not empty, so that
    the test [if error] of the page tells the two apart. *)
Theorem run_browser_task_result_or_message (environ : gmap string string)
    (agent : agent_oracle) (task provider : string) (model : option string)
    (t : trace) (pair : option history * option string) :
  (run_browser_task environ agent task provider model t).1 = Return pair →
  (∃ h, pair = (Some h, None))
  ∨ (∃ text, pair = (None, Some text) ∧ text ≠ "").
Proof.
  destruct (run_browser_task environ agent task provider model t)
    as [r t'] eqn:Hrun.
  intros [= ->]. by eapply run_browser_task_pair.
Qed.

(** On an agent that raises an exception with an empty text. *)
Lemma run_browser_task_result_or_message_witness :
  (∃ h, (@None history, Some "Execution error: ") = (Some h, None))
  ∨ (∃ text, (@None history, Some "Execution error: ") = (None, Some text)
             ∧ text ≠ "").
Proof.
  apply (run_browser_task_result_or_message openai_only
           (agent_raising (Exc OtherException "")) "go" "openai" None
           no_trace (None, Some "Execution error: ")).
  reflexivity.
Defined.

(** A provider name outside the four is answered with the configuration
    error that names it, whatever the environment holds; no client is built
    and the agent is not run. *)
Theorem run_browser_task_unsupported (environ : gmap string string)
    (agent : agent_oracle) (task provider : string) (model : option string)
    (t : trace) :
  Py.whitespace_only task = false → provider ≠ "" →
  provider ∉ Spec.enumeration →
  run_browser_task environ agent task provider model t
  = (Return (None,
             Some ("Configuration error: Unsupported provider: "
                   +:+ provider)), t).
Proof.
  intros Hws Hp Hout.
  by rewrite (run_browser_task_no_client _ _ _ _ _
               (Exc ValueError ("Unsupported provider: " +:+ provider)))
    by (try apply create_llm_for_outside; done).
Qed.

(** On a provider name in capitals. *)
Lemma run_browser_task_unsupported_witness :
  run_browser_task openai_only agent_done "go" "OpenAI" None no_trace
  = (Return (None,
             Some ("Configuration error: Unsupported provider: "
                   +:+ "OpenAI")), no_trace).
Proof.
  apply (run_browser_task_unsupported openai_only agent_done "go" "OpenAI"
           None no_trace); [reflexivity|discriminate|].
  unfold Spec.enumeration. rewrite !not_elem_of_cons.
  repeat split; (discriminate || apply not_elem_of_nil).
Defined.

End MoreDispatcher.

(** ** More on the task block of the page *)
Section MoreBlock.
Import Flexible Streamlit Fixed Examples Terms.



End MoreBlock.

(** ** More on the first version of the page *)
Section MoreFirstVersion.
Import Flexible Streamlit Fixed Examples Terms.

(** The dispatcher of [browser_use_ui.py] has one clause, [except
    Exception], and no deadline.  It raises exactly the exceptions outside
    [Exception] in which a run of the agent ends; it does not come back
    exactly when the client is built and the run of the agent never ends;
    and it runs the agent whenever the client is built, on the task as
    given, blank or not. *)
Theorem original_run_browser_task_behaviour (environ : gmap string string)
    (agent : agent_oracle) (task provider : string) (model : option string)
    (t : trace) :
  (∀ e, (Original.run_browser_task environ agent task provider model t).1
        = Raise e
        ↔ is_Exception (class_of e) = false
          ∧ ∃ llm0 d, create_llm_for environ provider model = Return llm0
                      ∧ left_alone (agent task llm0 None) = Raises d e)
  ∧ ((Original.run_browser_task environ agent task provider model t).1
       = Blocks
     ↔ ∃ llm0, create_llm_for environ provider model = Return llm0
               ∧ left_alone (agent task llm0 None) = Never)
  ∧ invoked (Original.run_browser_task environ agent task provider model t).2
    = invoked t ++ match create_llm_for environ provider model with
                   | Return llm0 => [run_of task llm0]
                   | _ => []
                   end.
Proof.
  rewrite original_run_browser_task_cases.
  destruct (create_llm_for environ provider model) as [llm0|e0|] eqn:Hllm.
  - cbn zeta.
    destruct (left_alone (agent task llm0 None)) as [d h|d e0|] eqn:Hagent.
    + cbn. split; [|split; [|done]].
      * intros e. split; [done|]. intros (_ & ? & ? & [= <-] & ?). congruence.
      * split; [done|]. intros (? & [= <-] & ?). congruence.
    + destruct (is_Exception (class_of e0)) eqn:He; cbn.
      * split; [|split; [|done]].
        -- intros e. split; [done|].
           intros (? & ? & ? & [= <-] & ?). congruence.
        -- split; [done|]. intros (? & [= <-] & ?). congruence.
      * split; [|split; [|done]].
        -- intros e. split.
           ++ intros [= <-]. split; [done|]. by eexists _, _.
           ++ intros (_ & ? & ? & [= <-] & ?). congruence.
        -- split; [done|]. intros (? & [= <-] & ?). congruence.
    + cbn. split; [|split; [|done]].
      * intros e. split; [done|]. intros (_ & ? & ? & [= <-] & ?). congruence.
      * split; [by eexists|done].
  - cbn. rewrite app_nil_r. split; [|split; [|done]].
    + intros e. split; [done|]. intros (_ & ? & ? & ? & _). discriminate.
    + split; [done|]. intros (? & ? & _). discriminate.
  - by apply create_llm_for_not_blocks in Hllm.
Qed.



(** In [browser_use_ui.py] the wait for the agent has no deadline: when the
    run never ends, the page hangs in the call, after one start of the
    agent, with [task_running] set. *)
Theorem original_page_hangs (agent : agent_oracle)
    (now later task_input provider : string) (w : world) (llm0 : llm) :
  Py.whitespace_only task_input = false →
  create_llm_for (environ w) provider (Some (model_name (session w)))
    = Return llm0 →
  left_alone (agent (Py.strip task_input) llm0 None) = Never →
  ∃ w' t,
    Original.handle_task_execution agent now later true task_input provider w
    = (Hangs, w', t)
    ∧ task_running (session w') = true
    ∧ invoked t = [run_of (Py.strip task_input) llm0].
Proof.
  intros Hws Hllm Hagent.
  unfold Original.handle_task_execution.
  rewrite strip_truthy, Hws. cbn [andb negb].
  unfold try_except at 1. unfold bind at 1.
  cbn [model_name set_task_running set_current_task append_message].
  rewrite original_run_browser_task_cases, Hllm. cbn zeta. rewrite Hagent.
  eexists _, _. split; [reflexivity|]. split; reflexivity.
Qed.

(** On the agent that never ends. *)
Lemma original_page_hangs_witness :
  ∃ w' t,
    Original.handle_task_execution agent_stuck "10:00" "10:05" true "go"
      "openai" (fresh_world openai_only)
    = (Hangs, w', t)
    ∧ task_running (session w') = true
    ∧ invoked t = [run_of (Py.strip "go") openai_client].
Proof.
  apply (original_page_hangs agent_stuck "10:00" "10:05" "go" "openai"
           (fresh_world openai_only) openai_client); reflexivity.
Defined.

End MoreFirstVersion.

(** ** The command-line script *)
Section MoreScript.
Import Flexible FlexibleScript Examples MoreExamples Terms.

Variable int_of : string → option Z.

(** The loop hands back one of the providers it was given, after reading
    at least one line. *)
Lemma select_provider_spec (available stdin rest : list string)
    (provider : string) :
  select_provider int_of available stdin = (Return provider, rest) →
  provider ∈ available ∧ ∃ used, stdin = used ++ rest ∧ used ≠ [].
Proof.
  revert rest.
  induction stdin as [|line stdin IH]; intros rest; [discriminate|].
  cbn [select_provider]. cbn zeta.
  assert (Hrec :
    select_provider int_of available stdin = (Return provider, rest) →
    provider ∈ available
    ∧ ∃ used, line :: stdin = used ++ rest ∧ used ≠ []).
  { intros (Hin & used & -> & _)%IH. split; [done|]. by exists (line :: used). }
  destruct (Py.truthy (Py.strip line)); cbn [negb].
  - destruct (int_of (Py.strip line)) as [n|]; [|exact Hrec].
    destruct ((0 <=? n - 1)%Z && (n - 1 <? Z.of_nat (length available))%Z);
      [|exact Hrec].
    destruct (available !! Z.to_nat (n - 1)) as [p|] eqn:Hp; [|discriminate].
    intros [= -> ->]. split; [by eapply list_elem_of_lookup_2|].
    by exists [line].
  - destruct (available !! 0%nat) as [p|] eqn:Hp; [|discriminate].
    intros [= -> ->]. split; [by eapply list_elem_of_lookup_2|].
    by exists [line].
Qed.

Lemma select_model_spec (stdin rest : list string) (model : option string) :
  select_model stdin = (Return model, rest) →
  model ≠ Some "" ∧ (∀ m, model = Some m → Py.strip m = m)
  ∧ ∃ line, stdin = line :: rest.
Proof.
  destruct stdin as [|line stdin]; [discriminate|].
  cbn [select_model]. cbn zeta.
  destruct (Py.truthy (Py.strip line)) eqn:Ht; intros [= <- <-].
  - apply truthy_true_iff in Ht. repeat split; [congruence| |by eexists].
    intros m [= <-]. apply strip_idempotent.
  - repeat split; [done|done|by eexists].
Qed.

Lemma get_available_providers_enumerated (environ : gmap string string)
    (p : string) :
  p ∈ get_available_providers environ → p ∈ Spec.enumeration.
Proof. by intros [? _]%elem_of_get_available_providers. Qed.

Lemma enumerated_truthy (p : string) :
  p ∈ Spec.enumeration → Py.truthy p = true.
Proof. by intros [-> | [-> | [-> | ->]]]%elem_of_enumeration. Qed.

(** What [interactive_provider_selection] can return.  Either no provider
    is configured, and it returns the pair of [None]s without reading a
    line; or it returns a provider that [get_available_providers] lists,
    after reading at least two lines, with a model that is [None] or a
    stripped, non-empty text; and [create_llm] builds a client for what it
    returned. *)
Theorem interactive_provider_selection_spec (environ : gmap string string)
    (stdin rest : list string) (provider model : option string) :
  interactive_provider_selection int_of environ stdin
    = (Return (provider, model), rest) →
  (provider = None ∧ model = None ∧ get_available_providers environ = []
   ∧ rest = stdin)
  ∨ (∃ p, provider = Some p ∧ p ∈ get_available_providers environ
          ∧ model ≠ Some "" ∧ (∀ m, model = Some m → Py.strip m = m)
          ∧ (∃ used, stdin = used ++ rest ∧ (2 ≤ length used)%nat)
          ∧ ∃ client, create_llm environ provider model = Return client).
Proof.
  unfold interactive_provider_selection. cbn zeta.
  destruct (get_available_providers environ) as [|p0 ps] eqn:Ha.
  { intros [= <- <- <-]. by left. }
  destruct (select_provider int_of (p0 :: ps) stdin) as [[p|e|] stdin1]
    eqn:Hsel; [|discriminate..].
  apply select_provider_spec in Hsel as (Hin & used & -> & Hused).
  assert (Hsame : match suggestions p with
                  | _ :: _ => select_model stdin1
                  | [] => select_model stdin1
                  end = select_model stdin1) by (by destruct (suggestions p)).
  rewrite Hsame.
  destruct (select_model stdin1) as [[m|e|] stdin2] eqn:Hmod;
    [|discriminate..].
  apply select_model_spec in Hmod as (Hne & Hstrip & line & ->).
  intros [= <- <- <-]. right. exists p. repeat split; try done.
  - exists (used ++ [line]). rewrite <-app_assoc. split; [done|].
    rewrite length_app. destruct used; [done|]. simpl. lia.
  - rewrite create_llm_effective. apply create_llm_for_available_iff.
    unfold effective_provider. cbn [Py.truthy_opt].
    rewrite enumerated_truthy; [by rewrite Ha|].
    apply (get_available_providers_enumerated environ). by rewrite Ha.
Qed.

(** Pressing Enter at both questions picks the first configured provider
    and leaves the model to the defaults. *)
Theorem interactive_defaults (environ : gmap string string)
    (first second : string) (rest : list string) :
  Py.whitespace_only first = true → Py.whitespace_only second = true →
  interactive_provider_selection int_of environ (first :: second :: rest)
  = match get_available_providers environ with
    | [] => (Return (None, None), first :: second :: rest)
    | p :: _ => (Return (Some p, None), rest)
    end.
Proof.
  intros H1 H2. unfold interactive_provider_selection. cbn zeta.
  destruct (get_available_providers environ) as [|p ps]; [reflexivity|].
  cbn [select_provider]. cbn zeta.
  rewrite strip_truthy, H1. cbn [negb lookup list_lookup].
  destruct (suggestions p); cbn [select_model]; cbn zeta;
    rewrite strip_truthy, H2; reflexivity.
Qed.






End MoreScript.

Section ScriptExamples.
Import Flexible FlexibleScript Examples MoreExamples Terms.

(** On a terminal where the user types 0, then abc, then 2, then a model. *)
Lemma interactive_provider_selection_spec_witness :
  (Some "anthropic" = None ∧ Some "gpt-4o-mini" = None
   ∧ get_available_providers two_providers = []
   ∧ ["next"] = ["0"; "abc"; "2"; " gpt-4o-mini "; "next"])
  ∨ (∃ p, Some "anthropic" = Some p
          ∧ p ∈ get_available_providers two_providers
          ∧ Some "gpt-4o-mini" ≠ Some ""
          ∧ (∀ m, Some "gpt-4o-mini" = Some m → Py.strip m = m)
          ∧ (∃ used, ["0"; "abc"; "2"; " gpt-4o-mini "; "next"]
                     = used ++ ["next"] ∧ (2 ≤ length used)%nat)
          ∧ ∃ client,
              create_llm two_providers (Some "anthropic")
                (Some "gpt-4o-mini") = Return client).
Proof.
  apply (interactive_provider_selection_spec digit_of two_providers
           ["0"; "abc"; "2"; " gpt-4o-mini "; "next"] ["next"]
           (Some "anthropic") (Some "gpt-4o-mini")).
  vm_compute. reflexivity.
Defined.

(** On an empty line and a line of blanks. *)
Lemma interactive_defaults_witness :
  interactive_provider_selection digit_of two_providers [""; "  "; "next"]
  = match get_available_providers two_providers with
    | [] => (Return (None, None), [""; "  "; "next"])
    | p :: _ => (Return (Some p, None), ["next"])
    end.
Proof.
  apply (interactive_defaults digit_of two_providers "" "  " ["next"]);
    reflexivity.
Defined.

End ScriptExamples.

(** ** One run of the page *)
Section MorePage.
Import Flexible Streamlit Fixed FixedPage Examples MoreExamples Terms.

Lemma start_button_dispatches (ui : widgets) (provider : string) (w : world) :
  Spec.dispatches (start_button ui provider w) (task_input_field ui) provider w
  = start_button ui provider w.
Proof.
  unfold Spec.dispatches, start_button, can_start_task,
    Spec.credential_variable.
  destruct (start_pressed ui), (task_running (session w)),
    (Py.truthy (task_input_field ui)),
    (Py.truthy (Py.strip (task_input_field ui))),
    (validate_api_key _); reflexivity.
Qed.

Lemma save_api_keys_session
    (load_dotenv : string → gmap string string → gmap string string)
    (k1 k2 k3 k4 : option string) (w : world) :
  session (save_api_keys load_dotenv k1 k2 k3 k4 w).2 = session w.
Proof.
  unfold save_api_keys, write_dotenv, reload_environment.
  destruct (negb _); [reflexivity|].
  destruct (write_error w); reflexivity.
Qed.

(** The task block behind the start button of the page: it is skipped, or
    it dispatches from an idle session.  A dispatch keeps the provider and
    the model and starts the agent at most once; it ends in a rerun with
    the flag [task_running] cleared, or, after the agent has been started,
    it dies or hangs with the flag set. *)
Lemma gated_block (agent : agent_oracle) (now later : string) (ui : widgets)
    (provider : string) (w : world) :
  let r := handle_task_execution agent now later (start_button ui provider w)
             (task_input_field ui) provider w in
  (start_button ui provider w = false ∧ r = (Continues, w, no_trace))
  ∨ (start_button ui provider w = true ∧ task_running (session w) = false
     ∧ ∃ ending w' t, r = (ending, w', t)
        ∧ llm_provider (session w') = llm_provider (session w)
        ∧ model_name (session w') = model_name (session w)
        ∧ (length (invoked t) ≤ 1)%nat
        ∧ ((ending = Reruns ∧ task_running (session w') = false)
           ∨ ((ending = Crashes ∨ ending = Hangs)
              ∧ task_running (session w') = true ∧ invoked t ≠ []))).
Proof.
  cbn zeta. destruct (start_button ui provider w) eqn:Hb.
  - right. split; [done|]. split.
    { unfold start_button, can_start_task in Hb.
      rewrite !andb_true_iff, negb_true_iff in Hb. tauto. }
    pose proof (start_button_dispatches ui provider w) as Hd.
    rewrite Hb in Hd.
    destruct (handle_task_execution_dispatched agent now later true
                (task_input_field ui) provider w Hd)
      as (r & t & Hrun & Hlen & Hr).
    destruct r as [[result error]|e|].
    + rewrite Hr. eexists _, _, _. split; [reflexivity|].
      split; [by destruct (Py.truthy_opt error)|].
      split; [by destruct (Py.truthy_opt error)|].
      split; [done|]. left. by destruct (Py.truthy_opt error).
    + destruct Hr as [_ ->]. eexists _, _, _. split; [reflexivity|].
      split; [done|]. split; [done|]. split; [done|].
      right. split; [by left|]. split; [done|].
      destruct (run_browser_task_not_returned (environ w) agent
                  (Py.strip (task_input_field ui)) provider
                  (Some (model_name (session w))) no_trace)
        as (llm0 & _ & _ & Hi); [by rewrite Hrun|].
      rewrite Hrun in Hi. cbn in Hi. by rewrite Hi.
    + rewrite Hr. eexists _, _, _. split; [reflexivity|].
      split; [done|]. split; [done|]. split; [done|].
      right. split; [by right|]. split; [done|].
      destruct (run_browser_task_not_returned (environ w) agent
                  (Py.strip (task_input_field ui)) provider
                  (Some (model_name (session w))) no_trace)
        as (llm0 & _ & _ & Hi); [by rewrite Hrun|].
      rewrite Hrun in Hi. cbn in Hi. by rewrite Hi.
  - left. split; [done|]. reflexivity.
Qed.

Lemma issues_shown_session (issues : list string) (w : world) :
  session (foldl (λ w issue, st_error ("• " +:+ issue) w) w issues)
  = session w.
Proof.
  revert w. induction issues as [|x l IH]; intros w; [reflexivity|].
  cbn. by rewrite IH.
Qed.

Lemma sidebar_selection_task_running (ui : widgets) (w : world) :
  task_running (session (sidebar_selection ui w)) = task_running (session w).
Proof.
  unfold sidebar_selection. cbn zeta.
  destruct (get_model_options _); reflexivity.
Qed.

(** A run of the page that comes to its end, by running through, by
    [st.stop()] or by [st.rerun()], leaves the flag [task_running] as it
    found it, whatever the widgets report: from an idle session every such
    path ends idle, and with the flag set nothing is dispatched.  The flag
    is left set by a run that found it cleared only when the agent has been
    started and the dispatcher has not come back: the run has died of an
    exception outside [Exception], or it hangs. *)
Theorem main_keeps_task_running
    (load_dotenv : string → gmap string string → gmap string string)
    (agent : agent_oracle) (issues : list string) (now later : string)
    (ui : widgets) (w : world) :
  match (main load_dotenv agent issues now later ui w).1.1 with
  | Crashes | Hangs =>
      task_running (session w) = false
      ∧ task_running
          (session (main load_dotenv agent issues now later ui w).1.2)
        = true
      ∧ invoked (main load_dotenv agent issues now later ui w).2 ≠ []
  | Continues | Stops | Reruns =>
      task_running
        (session (main load_dotenv agent issues now later ui w).1.2)
      = task_running (session w)
  end.
Proof.
  unfold main.
  destruct issues as [|issue issues]; [|cbn; by rewrite issues_shown_session].
  cbn zeta.
  set (w1 := sidebar_selection ui w).
  pose proof (sidebar_selection_task_running ui w) as H1. fold w1 in H1.
  set (saved := if save_keys_pressed ui then _ else _).
  assert (Hs : session saved.2 = session w1).
  { subst saved.
    destruct (save_keys_pressed ui); [apply save_api_keys_session|done]. }
  destruct saved.1; [cbn; by rewrite Hs|].
  destruct (clear_pressed ui); [cbn; by rewrite Hs|].
  destruct (gated_block agent now later ui (llm_provider (session w1))
              saved.2)
    as [[Hb ->]
       |(Hb & Hidle & ending & w' & t & -> & _ & _ & _
         & [[-> Hw']|[[-> | ->] [Hw' Ht]]])].
  - destruct (example_pressed ui) as [i|]; [destruct (examples !! i)|];
      cbn; by rewrite Hs.
  - cbn. rewrite Hw', <-H1, <-Hs. done.
  - cbn. rewrite <-H1, <-Hs. done.
  - cbn. rewrite <-H1, <-Hs. done.
Qed.




(** A run of the page starts the agent only when the requirements are met,
    the start button is pressed, the chat is not being cleared, no task is
    running and the task typed is not blank; it then starts it exactly
    once, and it does not go on to the rest of the page: it ends by asking
    for a rerun, with the flag [task_running] cleared, or it dies or hangs
    with the flag set. *)
Theorem main_runs_agent
    (load_dotenv : string → gmap string string → gmap string string)
    (agent : agent_oracle) (issues : list string) (now later : string)
    (ui : widgets) (w : world) :
  let run := main load_dotenv agent issues now later ui w in
  invoked run.2 ≠ [] →
  issues = [] ∧ start_pressed ui = true ∧ clear_pressed ui = false
  ∧ task_running (session w) = false
  ∧ Py.whitespace_only (task_input_field ui) = false
  ∧ length (invoked run.2) = 1%nat
  ∧ ((run.1.1 = Reruns ∧ task_running (session run.1.2) = false)
     ∨ ((run.1.1 = Crashes ∨ run.1.1 = Hangs)
        ∧ task_running (session run.1.2) = true)).
Proof.
  cbn zeta.
  unfold main. destruct issues as [|issue issues]; [|done].
  cbn zeta.
  set (w1 := sidebar_selection ui w).
  pose proof (sidebar_selection_task_running ui w) as H1. fold w1 in H1.
  set (saved := if save_keys_pressed ui then _ else _).
  assert (Hs : session saved.2 = session w1).
  { subst saved.
    destruct (save_keys_pressed ui); [apply save_api_keys_session|done]. }
  destruct saved.1; [done|].
  destruct (clear_pressed ui); [done|].
  destruct (gated_block agent now later ui (llm_provider (session w1))
              saved.2)
    as [[Hb ->]
       |(Hb & Hidle & ending & w' & t & -> & _ & _ & Hlen
         & [[-> Hw']|[[-> | ->] [Hw' _]]])].
  { destruct (example_pressed ui) as [i|]; [destruct (examples !! i)|]; done. }
  all: cbn; intros Hne;
    unfold start_button, can_start_task in Hb; rewrite !andb_true_iff in Hb;
    destruct Hb as (Hp & [[[_ _] Hstrip] _]);
    rewrite strip_truthy, negb_true_iff in Hstrip;
    rewrite <-H1, <-Hs;
    (split; [done|]); (split; [done|]); (split; [done|]); (split; [done|]);
    (split; [done|]);
    (split;
     [destruct (invoked t) as [|c [|c' l]]; [done|done|simpl in Hlen; lia]|]).
  - by left.
  - right. split; [by left|done].
  - right. split; [by right|done].
Qed.

(** On the run [start_ui] with an OpenAI credential. *)
Lemma main_runs_agent_witness :
  let run :=
    main Dotenv.load_dotenv agent_done [] "10:00" "10:05" start_ui
      (fresh_world openai_only) in
  @nil string = [] ∧ start_pressed start_ui = true
  ∧ clear_pressed start_ui = false
  ∧ task_running (session (fresh_world openai_only)) = false
  ∧ Py.whitespace_only (task_input_field start_ui) = false
  ∧ length (invoked run.2) = 1%nat
  ∧ ((run.1.1 = Reruns ∧ task_running (session run.1.2) = false)
     ∨ ((run.1.1 = Crashes ∨ run.1.1 = Hangs)
        ∧ task_running (session run.1.2) = true)).
Proof.
  apply (main_runs_agent Dotenv.load_dotenv agent_done [] "10:00" "10:05"
           start_ui (fresh_world openai_only)).
  vm_compute. discriminate.
Defined.

End MorePage.

(** ** The sidebar: provider and model *)
Section MoreSidebar.
Import Flexible Streamlit Fixed FlexibleScript FixedPage Examples MoreExamples.
Import Terms.

Lemma offered_providers_nonempty (environ : gmap string string) :
  offered_providers environ ≠ [].
Proof.
  unfold offered_providers. by destruct (get_available_providers environ).
Qed.

Lemma offered_providers_enumerated (environ : gmap string string)
    (p : string) :
  p ∈ offered_providers environ → p ∈ Spec.enumeration.
Proof.
  unfold offered_providers.
  destruct (get_available_providers environ) as [|p0 ps] eqn:Ha; [done|].
  rewrite <-Ha. apply get_available_providers_enumerated.
Qed.

Lemma get_model_options_enumerated (p : string) :
  p ∈ Spec.enumeration →
  get_model_options p ≠ [] ∧ Forall (λ m, m ≠ "") (get_model_options p).
Proof.
  intros [-> | [-> | [-> | ->]]]%elem_of_enumeration; vm_compute;
    (split; [discriminate|]); repeat constructor; discriminate.
Qed.

Lemma sidebar_selection_spec (ui : widgets) (w : world) :
  select_boxes_behave ui →
  llm_provider (session (sidebar_selection ui w))
    ∈ offered_providers (environ w)
  ∧ model_name (session (sidebar_selection ui w))
    ∈ get_model_options (llm_provider (session (sidebar_selection ui w))).
Proof.
  intros [Hp Hm]. unfold sidebar_selection. cbn zeta.
  set (p := provider_box ui _ _).
  assert (Hin : p ∈ offered_providers (environ w))
    by apply Hp, offered_providers_nonempty.
  destruct (get_model_options_enumerated p) as [Hne _];
    [by apply (offered_providers_enumerated (environ w))|].
  destruct (get_model_options p) as [|m ms] eqn:Ho; [done|].
  cbn. split; [done|]. rewrite Ho. by apply Hm.
Qed.

(** After the sidebar the rest of a run keeps the provider and the model. *)
Lemma main_keeps_selection
    (load_dotenv : string → gmap string string → gmap string string)
    (agent : agent_oracle) (now later : string) (ui : widgets) (w : world) :
  llm_provider (session (main load_dotenv agent [] now later ui w).1.2)
  = llm_provider (session (sidebar_selection ui w))
  ∧ model_name (session (main load_dotenv agent [] now later ui w).1.2)
    = model_name (session (sidebar_selection ui w)).
Proof.
  unfold main. cbn zeta.
  set (w1 := sidebar_selection ui w).
  set (saved := if save_keys_pressed ui then _ else _).
  assert (Hs : session saved.2 = session w1).
  { subst saved.
    destruct (save_keys_pressed ui); [apply save_api_keys_session|done]. }
  destruct saved.1; [cbn; by rewrite Hs|].
  destruct (clear_pressed ui); [cbn; by rewrite Hs|].
  destruct (gated_block agent now later ui (llm_provider (session w1))
              saved.2)
    as [[Hb ->]
       |(Hb & Hidle & ending & w' & t & -> & Hp & Hm & _
         & [[-> _]|[[-> | ->] _]])].
  - destruct (example_pressed ui) as [i|]; [destruct (examples !! i)|];
      cbn; by rewrite Hs.
  - cbn. by rewrite Hp, Hm, Hs.
  - cbn. by rewrite Hp, Hm, Hs.
  - cbn. by rewrite Hp, Hm, Hs.
Qed.

(** The page never works with a provider or a model of its own making.
    When the select boxes answer with one of their options, every run that
    passes the requirement check ends with a provider of the enumeration
    that was offered, and with a non-empty model out of that provider's
    list; a client built for the two carries exactly that model, so that
    the MODEL variables of the environment play no part in a dispatch of
    the page. *)
Theorem main_selection
    (load_dotenv : string → gmap string string → gmap string string)
    (agent : agent_oracle) (now later : string) (ui : widgets) (w : world) :
  select_boxes_behave ui →
  let s' := session (main load_dotenv agent [] now later ui w).1.2 in
  llm_provider s' ∈ offered_providers (environ w)
  ∧ llm_provider s' ∈ Spec.enumeration
  ∧ model_name s' ∈ get_model_options (llm_provider s')
  ∧ model_name s' ≠ ""
  ∧ ∀ environ client,
      create_llm_for environ (llm_provider s') (Some (model_name s'))
        = Return client →
      client_model client = model_name s'.
Proof.
  intros Hui. cbn zeta.
  destruct (main_keeps_selection load_dotenv agent now later ui w)
    as [-> ->].
  destruct (sidebar_selection_spec ui w Hui) as [Hp Hm].
  pose proof (offered_providers_enumerated _ _ Hp) as He.
  destruct (get_model_options_enumerated _ He) as [_ Hall].
  assert (Hne : model_name (session (sidebar_selection ui w)) ≠ "").
  { rewrite Forall_forall in Hall. by apply Hall. }
  repeat split; try done.
  intros environ client Hc.
  apply create_llm_for_client_facts in Hc as [-> _].
  cbn [Py.truthy_opt]. apply truthy_true_iff in Hne. by rewrite Hne.
Qed.

Lemma first_ui_behaves : select_boxes_behave first_ui.
Proof.
  split; [intros options index|intros provider options index];
    (destruct options as [|o os]; [done|]); intros _; cbn;
    apply elem_of_cons; by left.
Qed.

(** On the run [first_ui] with no credential at all. *)
Lemma main_selection_witness :
  let s' := session (main Dotenv.load_dotenv agent_done [] "10:00" "10:05"
                       first_ui (fresh_world ∅)).1.2 in
  llm_provider s' ∈ offered_providers (environ (fresh_world ∅))
  ∧ llm_provider s' ∈ Spec.enumeration
  ∧ model_name s' ∈ get_model_options (llm_provider s')
  ∧ model_name s' ≠ ""
  ∧ ∀ environ client,
      create_llm_for environ (llm_provider s') (Some (model_name s'))
        = Return client →
      client_model client = model_name s'.
Proof.
  apply (main_selection Dotenv.load_dotenv agent_done "10:00" "10:05"
           first_ui (fresh_world ∅)).
  exact first_ui_behaves.
Defined.

Lemma index_of_lookup (x : string) (l : list string) (i : nat) :
  index_of x l = Some i → l !! i = Some x.
Proof.
  revert i. induction l as [|y l IH]; intros i; [discriminate|].
  cbn [index_of]. destruct (String.eqb_spec y x) as [->|].
  - by intros [= <-].
  - destruct (index_of x l) as [j|]; [|discriminate].
    intros [= <-]. cbn. by apply IH.
Qed.

Lemma index_of_elem (x : string) (l : list string) :
  x ∈ l → is_Some (index_of x l).
Proof.
  induction l as [|y l IH]; [by intros ?%elem_of_nil|].
  cbn [index_of]. destruct (String.eqb_spec y x) as [->|Hne]; [by eexists|].
  intros [?|Hin]%elem_of_cons; [congruence|].
  destruct (IH Hin) as [j ->]. by eexists.
Qed.

(** When the user does not touch the provider box, the sidebar keeps the
    provider of the session if it is among those offered, and falls back to
    the first one offered otherwise. *)
Theorem sidebar_keeps_choice (ui : widgets) (w : world) :
  provider_box ui = untouched_box →
  llm_provider (session (sidebar_selection ui w))
  = if bool_decide (llm_provider (session w) ∈ offered_providers (environ w))
    then llm_provider (session w)
    else default "" (head (offered_providers (environ w))).
Proof.
  intros Hbox. unfold sidebar_selection. cbn zeta. rewrite Hbox.
  set (p := untouched_box _ _).
  assert (Hp : ∀ s,
    llm_provider
      (match get_model_options p with
       | [] => s
       | _ :: _ =>
           set_model_name (model_box ui p (get_model_options p) 0%nat) s
       end) = llm_provider s).
  { intros s. by destruct (get_model_options p). }
  cbn [session with_session]. rewrite Hp. cbn [llm_provider set_llm_provider].
  subst p. unfold untouched_box, current_index.
  case_bool_decide as Hin.
  - destruct (index_of_elem _ _ Hin) as [i Hi]. rewrite Hi.
    change (default 0%nat (Some i)) with i.
    by rewrite (index_of_lookup _ _ _ Hi).
  - by rewrite head_lookup.
Qed.

(** On a session whose provider is openai while only Anthropic and OpenAI
    are configured. *)
Lemma sidebar_keeps_choice_witness :
  llm_provider (session (sidebar_selection start_ui (fresh_world two_providers)))
  = if bool_decide (llm_provider (session (fresh_world two_providers))
                    ∈ offered_providers (environ (fresh_world two_providers)))
    then llm_provider (session (fresh_world two_providers))
    else default ""
           (head (offered_providers (environ (fresh_world two_providers)))).
Proof.
  apply (sidebar_keeps_choice start_ui (fresh_world two_providers)).
  reflexivity.
Defined.

End MoreSidebar.

(** ** [initialize_session_state] *)
Section MoreSession.
Import Flexible Streamlit Fixed FixedPage Examples MoreExamples Terms.

Lemma set_default_union (state : gmap string value) (item : string * value)
    (m : gmap string value) :
  set_default state item ∪ m = state ∪ <[item.1 := item.2]> m.
Proof.
  destruct item as [k v]. unfold set_default. cbn [fst snd].
  apply map_eq. intros j. rewrite !lookup_union.
  destruct (state !! k) as [old|] eqn:Hk.
  - destruct (decide (k = j)) as [<-|Hne].
    + rewrite lookup_insert_eq, Hk. by destruct (m !! k).
    + by rewrite lookup_insert_ne.
  - destruct (decide (k = j)) as [<-|Hne].
    + rewrite !lookup_insert_eq, Hk. by destruct (m !! k).
    + by rewrite !lookup_insert_ne.
Qed.

Lemma foldl_set_default (l : list (string * value))
    (state : gmap string value) :
  foldl set_default state l = state ∪ list_to_map l.
Proof.
  revert state. induction l as [|item l IH]; intros state.
  - cbn. by rewrite (right_id_L ∅ (∪)).
  - cbn [foldl]. rewrite IH, set_default_union. by destruct item.
Qed.

(** [initialize_session_state] completes the session with the defaults and
    overwrites nothing: its result is the session it found, united with the
    dict of defaults, the session winning.  Hence it is idempotent, keeps
    every entry of the session, and defines each of the seven keys. *)
Theorem initialize_session_state_union (environ : gmap string string)
    (state : gmap string value) :
  initialize_session_state environ state
    = state ∪ list_to_map (defaults environ)
  ∧ initialize_session_state environ (initialize_session_state environ state)
    = initialize_session_state environ state
  ∧ (∀ k v, state !! k = Some v →
            initialize_session_state environ state !! k = Some v)
  ∧ (∀ k, k ∈ (defaults environ).*1 →
          is_Some (initialize_session_state environ state !! k)).
Proof.
  unfold initialize_session_state. rewrite !foldl_set_default.
  split; [done|]. split; [|split].
  - rewrite <-(assoc_L (∪)). by rewrite (idemp_L (∪)).
  - intros k v Hk. by apply lookup_union_Some_l.
  - intros k Hk. apply elem_of_dom. rewrite dom_union_L, dom_list_to_map_L.
    apply elem_of_union_r. by apply elem_of_list_to_set.
Qed.

(** The two versions of [initialize_session_state] give the same value to
    every key but the two that only the fixed page has. *)
Theorem original_initialize_agrees (environ : gmap string string)
    (state : gmap string value) (k : string) :
  k ≠ "last_error" → k ≠ "task_count" →
  original_initialize_session_state environ state !! k
  = initialize_session_state environ state !! k.
Proof.
  intros H1 H2.
  change (initialize_session_state environ state)
    with (set_default
            (set_default (original_initialize_session_state environ state)
               ("last_error", VNone))
            ("task_count", VInt 0)).
  unfold set_default at 1. cbn [fst snd].
  destruct (_ !! "task_count"); [|rewrite lookup_insert_ne by done];
    unfold set_default at 1; cbn [fst snd];
    (destruct (_ !! "last_error"); [|rewrite lookup_insert_ne by done]);
    reflexivity.
Qed.

(** On the provider key of an empty session. *)
Lemma original_initialize_agrees_witness :
  original_initialize_session_state two_providers ∅ !! "llm_provider"
  = initialize_session_state two_providers ∅ !! "llm_provider".
Proof.
  apply (original_initialize_agrees two_providers ∅ "llm_provider");
    discriminate.
Defined.

End MoreSession.

(** ** More on the settings store *)
Section MoreSettings.
Import Flexible Streamlit Fixed Examples MoreExamples Terms.

(** When the file cannot be opened for writing, [save_api_keys] returns
    [False] and shows the error of the operating system; the file, the
    environment and the session are as they were. *)
Theorem save_api_keys_write_failure
    (load_dotenv : string → gmap string string → gmap string string)
    (k1 k2 k3 k4 : option string) (w : world) (why : string) :
  validate_api_key k1 = true ∨ validate_api_key k2 = true
  ∨ validate_api_key k3 = true ∨ validate_api_key k4 = true →
  write_error w = Some why →
  save_api_keys load_dotenv k1 k2 k3 k4 w
    = (false, st_error ("❌ Error saving API keys: " +:+ why) w)
  ∧ dotenv_file (save_api_keys load_dotenv k1 k2 k3 k4 w).2 = dotenv_file w
  ∧ environ (save_api_keys load_dotenv k1 k2 k3 k4 w).2 = environ w
  ∧ session (save_api_keys load_dotenv k1 k2 k3 k4 w).2 = session w.
Proof.
  intros Hvalid Hwrite. unfold save_api_keys, write_dotenv.
  assert (existsb id [validate_api_key k1; validate_api_key k2;
                      validate_api_key k3; validate_api_key k4] = true) as ->.
  { cbn [existsb id]. destruct Hvalid as [-> | [-> | [-> | ->]]];
      rewrite ?orb_true_r; reflexivity. }
  cbn [negb]. rewrite Hwrite. repeat split.
Qed.

(** On a directory without write permission. *)
Lemma save_api_keys_write_failure_witness :
  save_api_keys Dotenv.load_dotenv (Some "sk-validkey1234") None None None
      read_only_world
    = (false,
       st_error ("❌ Error saving API keys: "
                 +:+ "[Errno 13] Permission denied: '.env'") read_only_world)
  ∧ dotenv_file
      (save_api_keys Dotenv.load_dotenv (Some "sk-validkey1234") None None
         None read_only_world).2 = dotenv_file read_only_world
  ∧ environ
      (save_api_keys Dotenv.load_dotenv (Some "sk-validkey1234") None None
         None read_only_world).2 = environ read_only_world
  ∧ session
      (save_api_keys Dotenv.load_dotenv (Some "sk-validkey1234") None None
         None read_only_world).2 = session read_only_world.
Proof.
  apply (save_api_keys_write_failure Dotenv.load_dotenv
           (Some "sk-validkey1234") None None None read_only_world
           "[Errno 13] Permission denied: '.env'"); [by left|reflexivity].
Defined.

End MoreSettings.

(** ** The launcher *)
Section MoreLauncher.
Import Launcher.

(** The launcher starts the server exactly when the virtual environment
    and the two scripts it names are present: it then runs the one command
    and returns, however the command ends; otherwise it runs nothing and
    exits with status 1.  A missing settings file does not keep it from
    starting the server. *)
Theorem launcher_main_spec (present : gset string)
    (run : list string → run_end) :
  let ready :=
    bool_decide ("browser_use_env" ∈ present
                 ∧ "browser_use_ui.py" ∈ present
                 ∧ "flexible_browser_use.py" ∈ present) in
  exit (main present run) = (if ready then Returned else Exited 1)
  ∧ commands (main present run) = (if ready then [cmd] else [])
  ∧ head (printed (main present run)) = Some "🚀 Starting Browser Use UI...".
Proof.
  cbn zeta. unfold main, check_environment.
  set (ready := "browser_use_env" ∈ present ∧ "browser_use_ui.py" ∈ present
                ∧ "flexible_browser_use.py" ∈ present).
  destruct (bool_decide ("browser_use_env" ∈ present)) eqn:H1;
    destruct (bool_decide ("browser_use_ui.py" ∈ present)) eqn:H2;
    destruct (bool_decide ("flexible_browser_use.py" ∈ present)) eqn:H3;
    first [apply bool_decide_eq_true in H1
          | apply bool_decide_eq_false in H1];
    first [apply bool_decide_eq_true in H2
          | apply bool_decide_eq_false in H2];
    first [apply bool_decide_eq_true in H3
          | apply bool_decide_eq_false in H3];
    cbn [negb];
    (rewrite (bool_decide_eq_true_2 ready) by (subst ready; tauto))
    || (rewrite (bool_decide_eq_false_2 ready) by (subst ready; tauto));
    try (repeat split; reflexivity).
  destruct (bool_decide (".env" ∈ present)), (run cmd);
    repeat split; reflexivity.
Qed.

End MoreLauncher.
